(** * Request-scoped transactions in sample-golang-custom-handler

    A shallow embedding of [server.go].  The file holds two programs of the
    same package: the xhandler chain with [transactionMiddleware] (lines
    1-192, module [Chain] below) and the handlers that return [(int, error)]
    with [AppHandlerC] and [TransactionHandlerC] (lines 194-418, module
    [Custom] below).

    Go code running for one request is a function of the [World]: the
    database driver as the request sees it, the response writer [w], the
    process log and a trace of what happened to transactions.  A call either
    returns, panics (deferred calls still run, [recover] may catch it) or
    ends the process ([log.Fatal]). *)

From Stdlib Require Import ZArith Ascii String.
From stdpp Require Import gmap strings list.

Local Open Scope Z_scope.

(** ** Values of the Go program *)

(** An [error] by its [Error()] text; [None] is the nil error. *)
Definition error := string.

(** A [time.Time] by its [%s] rendering, which holds no formatting verb. *)
Definition Time := string.

(** A pointer to a [sql.Tx] is [option TxId]: [None] is the nil pointer. *)
Definition TxId := nat.

Inductive PanicValue :=
| NilDereference
| InterfaceConversion
| InvalidWriteHeaderCode (code : Z)
| PanicMsg (msg : string).

Inductive Outcome (A : Type) :=
| Ret (a : A)
| Panic (v : PanicValue)
| Exit (code : Z).
Arguments Ret {A} a.
Arguments Panic {A} v.
Arguments Exit {A} code.

(** What happened to transactions, oldest first.  [Committed] and
    [RolledBack] are the calls that reached the driver, with the driver's
    answer.  [Invoked] is a ghost event: a wrapper called the handler it
    wraps. *)
Inductive Event :=
| Begun (id : TxId)
| Committed (id : TxId) (res : option error)
| RolledBack (id : TxId) (res : option error)
| Invoked.

Abbreviation Header := (gmap string (list string)).

Inductive LogEntry :=
| LogHeader (h : Header)
| LogPanic (v : PanicValue)
| LogFatal (e : error)
| LogAccess (name method url : string).

(** The database as one request meets it: whether [Begin], a statement,
    [Commit] and [Rollback] fail, and with which error. *)
Record Driver := {
  begin_err : option error;
  query_row : string -> Time + error;
  commit_err : option error;
  rollback_err : option error
}.

(** [http.ResponseWriter]: the header map the handlers edit, what went on
    the wire when the header was written, and the body so far. *)
Record ResponseWriter := {
  header : Header;
  sent : option (Z * Header);
  body : string
}.

Record Request := { Method : string; URL : string }.

Record World := {
  driver : Driver;
  resp : ResponseWriter;
  logs : list LogEntry;
  trace : list Event
}.

Definition set_resp (rw : ResponseWriter) (s : World) : World :=
  {| driver := driver s; resp := rw; logs := logs s; trace := trace s |}.

Definition add_log (l : LogEntry) (s : World) : World :=
  {| driver := driver s; resp := resp s; logs := logs s ++ [l]; trace := trace s |}.

Definition add_event (e : Event) (s : World) : World :=
  {| driver := driver s; resp := resp s; logs := logs s; trace := trace s ++ [e] |}.

(** ** The monad of Go calls *)

Definition M (A : Type) : Type := World -> Outcome A * World.

Definition ret {A} (a : A) : M A := fun s => (Ret a, s).

Definition bind {A B} (m : M A) (k : A -> M B) : M B :=
  fun s =>
    match m s with
    | (Ret a, s1) => k a s1
    | (Panic v, s1) => (Panic v, s1)
    | (Exit c, s1) => (Exit c, s1)
    end.

Notation "'let*' p ':=' m 'in' k" := (bind m (fun p => k))
  (at level 10, p pattern, m at level 100, k at level 200).
Notation "m ;; k" := (bind m (fun _ => k))
  (at level 100, right associativity).

Definition panic {A} (v : PanicValue) : M A := fun s => (Panic v, s).

(** [defer d] in front of [body]: [d] runs when [body] returns and when it
    panics, and its result is dropped; a panic of [d] replaces the outcome.
    [os.Exit] runs no deferred call. *)
Definition defer {A B} (d : M B) (body : M A) : M A :=
  fun s =>
    match body s with
    | (Exit c, s1) => (Exit c, s1)
    | (o, s1) =>
        match d s1 with
        | (Ret _, s2) => (o, s2)
        | (Panic v, s2) => (Panic v, s2)
        | (Exit c, s2) => (Exit c, s2)
        end
    end.

(** [recover()] in a deferred closure: [handle v] runs when [body] panics
    with [v], and the function then returns normally. *)
Definition recovering (handle : PanicValue -> M unit) (body : M unit) : M unit :=
  fun s =>
    match body s with
    | (Panic v, s1) => handle v s1
    | r => r
    end.

(** ** package log *)

Definition log_Println (l : LogEntry) : M unit := fun s => (Ret tt, add_log l s).

(** [log.Fatal]: print, then [os.Exit(1)]. *)
Definition log_Fatal {A} (e : error) : M A :=
  fun s => (Exit 1, add_log (LogFatal e) s).

(** ** package net/http, as the handlers use it *)

Definition StatusOK : Z := 200.
Definition StatusInternalServerError : Z := 500.

Definition upper (c : ascii) : ascii :=
  let n := nat_of_ascii c in
  if ((97 <=? n) && (n <=? 122))%nat then ascii_of_nat (n - 32) else c.

Definition lower (c : ascii) : ascii :=
  let n := nat_of_ascii c in
  if ((65 <=? n) && (n <=? 90))%nat then ascii_of_nat (n + 32) else c.

(** [textproto.CanonicalMIMEHeaderKey] on a key made of token characters:
    the first letter and each letter after a hyphen in upper case, the rest
    in lower case. *)
Fixpoint canonical (up : bool) (k : string) : string :=
  match k with
  | EmptyString => EmptyString
  | String c k' =>
      String (if up then upper c else lower c)
             (canonical (Ascii.eqb c "-"%char) k')
  end.

Definition CanonicalMIMEHeaderKey (k : string) : string := canonical true k.

(** [w.Header().Set(k, v)] *)
Definition Header_Set (k v : string) : M unit :=
  fun s =>
    let rw := resp s in
    (Ret tt, set_resp {| header := <[CanonicalMIMEHeaderKey k := [v]]> (header rw);
                         sent := sent rw; body := body rw |} s).

Definition validWriteHeaderCode (code : Z) : bool :=
  (100 <=? code) && (code <=? 999).

(** [w.WriteHeader(code)]: the first call fixes status and headers, a later
    call is ignored; a code outside 100..999 panics.  The server reports an
    ignored call on its error log; [logs] holds the lines the program
    prints itself, and that line is not among them. *)
Definition WriteHeader (code : Z) : M unit :=
  fun s =>
    let rw := resp s in
    match sent rw with
    | Some _ => (Ret tt, s)
    | None =>
        if validWriteHeaderCode code
        then (Ret tt, set_resp {| header := header rw;
                                  sent := Some (code, header rw);
                                  body := body rw |} s)
        else (Panic (InvalidWriteHeaderCode code), s)
    end.

Definition bodyAllowedForStatus (code : Z) : bool :=
  negb (((100 <=? code) && (code <=? 199)) || (code =? 204) || (code =? 304)).

(** The status line on the wire, once the header was written. *)
Definition sent_status (rw : ResponseWriter) : option Z := fst <$> sent rw.

(** [w.Write(p)]: writes the header with 200 first when none was written;
    a status without body drops the data. *)
Definition Write (p : string) : M unit :=
  WriteHeader StatusOK ;;
  fun s =>
    let rw := resp s in
    match sent_status rw with
    | Some code =>
        if bodyAllowedForStatus code
        then (Ret tt, set_resp {| header := header rw; sent := sent rw;
                                  body := body rw +:+ p |} s)
        else (Ret tt, s)
    | None => (Ret tt, s)
    end.

Definition newline : string := String "010"%char EmptyString.

(** [http.Error(w, error, code)] *)
Definition http_Error (err : string) (code : Z) : M unit :=
  Header_Set "Content-Type" "text/plain; charset=utf-8" ;;
  Header_Set "X-Content-Type-Options" "nosniff" ;;
  WriteHeader code ;;
  Write (err +:+ newline).

(** ** package encoding/json *)

Definition dquote : string := String "034"%char EmptyString.

Definition hex (n : nat) : ascii :=
  nth n (list_ascii_of_string "0123456789abcdef") "0"%char.

(** One byte of a string as [json.Encoder] prints it (HTML escaping on):
    the quote and the backslash escaped, the control characters and
    [<], [>], [&] as escapes, every other byte as it is. *)
Definition json_byte (c : ascii) : string :=
  let n := nat_of_ascii c in
  if (n =? 34)%nat then "\" +:+ dquote
  else if (n =? 92)%nat then "\\"
  else if (n =? 10)%nat then "\n"
  else if (n =? 13)%nat then "\r"
  else if (n =? 9)%nat then "\t"
  else if ((n <? 32) || (n =? 60) || (n =? 62) || (n =? 38))%nat
       then "\u00" +:+ String (hex (n / 16)) (String (hex (n mod 16)) EmptyString)
  else String c EmptyString.

Fixpoint json_bytes (s : string) : string :=
  match s with
  | EmptyString => EmptyString
  | String c s' => json_byte c +:+ json_bytes s'
  end.

Definition json_string (s : string) : string := dquote +:+ json_bytes s +:+ dquote.

(** [json.NewEncoder(w).Encode(res)] for the map [res] with the one key
    [message]: the object on one line. *)
Definition message_object (msg : string) : string :=
  "{" +:+ json_string "message" +:+ ":" +:+ json_string msg +:+ "}".

Definition Encode_message (msg : string) : M unit :=
  Write (message_object msg +:+ newline).

(** ** package database/sql *)

Definition ErrTxDone : error :=
  "sql: transaction has already been committed or rolled back".

Definition is_begun (e : Event) : bool :=
  match e with Begun _ => true | _ => false end.

Definition finalizes (id : TxId) (e : Event) : bool :=
  match e with
  | Committed i _ | RolledBack i _ => Nat.eqb i id
  | _ => false
  end.

(** The [done] flag of the transaction. *)
Definition tx_done (id : TxId) (tr : list Event) : bool := existsb (finalizes id) tr.

Definition fresh_tx (tr : list Event) : TxId := length (List.filter is_begun tr).

(** [DB.Begin()] *)
Definition Begin : M (option TxId * option error) :=
  fun s =>
    match begin_err (driver s) with
    | Some e => (Ret (None, Some e), s)
    | None =>
        let id := fresh_tx (trace s) in
        (Ret (Some id, None), add_event (Begun id) s)
    end.

(** [tx.Commit()] *)
Definition Commit (tx : option TxId) : M (option error) :=
  fun s =>
    match tx with
    | None => (Panic NilDereference, s)
    | Some id =>
        if tx_done id (trace s) then (Ret (Some ErrTxDone), s)
        else (Ret (commit_err (driver s)),
              add_event (Committed id (commit_err (driver s))) s)
    end.

(** [tx.Rollback()] *)
Definition Rollback (tx : option TxId) : M (option error) :=
  fun s =>
    match tx with
    | None => (Panic NilDereference, s)
    | Some id =>
        if tx_done id (trace s) then (Ret (Some ErrTxDone), s)
        else (Ret (rollback_err (driver s)),
              add_event (RolledBack id (rollback_err (driver s))) s)
    end.

(** The zero [time.Time], left in [t] when [Scan] fails. *)
Definition zeroTime : Time := "0001-01-01 00:00:00 +0000 UTC".

Definition scan (r : Time + error) : Time * option error :=
  match r with
  | inl t => (t, None)
  | inr e => (zeroTime, Some e)
  end.

(** [tx.QueryRow(q).Scan(&t)] *)
Definition Tx_QueryRow_Scan (tx : option TxId) (q : string) : M (Time * option error) :=
  fun s =>
    match tx with
    | None => (Panic NilDereference, s)
    | Some id =>
        if tx_done id (trace s) then (Ret (zeroTime, Some ErrTxDone), s)
        else (Ret (scan (query_row (driver s) q)), s)
    end.

(** [db.QueryRow(q).Scan(&t)] *)
Definition DB_QueryRow_Scan (q : string) : M (Time * option error) :=
  fun s => (Ret (scan (query_row (driver s) q)), s).

(** ** package context *)

Inductive Value :=
| VTx (tx : option TxId)
| VString (v : string).

Abbreviation Context := (gmap string Value).

Definition Background : Context := ∅.

Definition WithValue (ctx : Context) (key : string) (val : Value) : Context :=
  <[key := val]> ctx.

(** ** The declarations the two programs share *)

Definition ctxTxKey : string := "tx".

Record AppConfig := {
  DBURI : string;
  DBPort : string;
  DBUserName : string;
  DBName : string;
  ServerPort : string;
  AppName : string
}.

Record App := { Name : string; Config : AppConfig }.

Record EchoApp := { EchoApp_App : App; EchoApp_Name : string }.

(** [NewApp]: [connect] is [sqlx.Connect] by driver name and data source
    name; a nil [App] pointer is [None]. *)
Definition NewApp (connect : string -> string -> option error) : option App * option error :=
  let cfg := {| DBURI := "localhost"; DBPort := "5432"; DBUserName := "pgtest";
                DBName := "pgtest"; ServerPort := "8991"; AppName := "" |} in
  match connect "postgres"
          ("user=" +:+ DBUserName cfg +:+ " dbname=" +:+ DBName cfg +:+ " sslmode=disable") with
  | Some err => (None, Some err)
  | None => (Some {| Name := "app"; Config := cfg |}, None)
  end.

(** [http.Handler] and [xhandler.HandlerC]; [w] is the writer of the world. *)
Definition Handler : Type := Request -> M unit.
Definition HandlerC : Type := Context -> Request -> M unit.

(** The call of a wrapped handler, with its ghost event. *)
Definition invoke {A} (h : M A) : M A := fun s => h (add_event Invoked s).

Definition loggingMiddleware (ap : App) (next : Handler) : Handler :=
  fun r =>
    next r ;;
    log_Println (LogAccess (Name ap) (Method r) (URL r)).

Definition recoverMiddleware (ap : App) (next : Handler) : Handler :=
  fun r =>
    recovering
      (fun err =>
         log_Println (LogPanic err) ;;
         Header_Set "Content-type" "application/json" ;;
         WriteHeader StatusInternalServerError ;;
         Encode_message "internal error")
      (next r).

(** The value under [ctxTxKey] asserted to be a [sql.Tx] pointer: the
    assertion panics on a nil interface and on a value of another type; a
    nil pointer of the right type passes. *)
Definition getTx (ctx : Context) : M (option TxId) :=
  match ctx !! ctxTxKey with
  | Some (VTx tx) => ret tx
  | _ => panic InterfaceConversion
  end.

(** [log.Println(w.Header())] *)
Definition log_Header : M unit :=
  fun s => log_Println (LogHeader (header (resp s))) s.

(** ** The xhandler chain (server.go, lines 1-192) *)

Module Chain.

Definition transactionMiddleware (ap : App) (next : HandlerC) : HandlerC :=
  fun ctx r =>
    let* (tx, err) := Begin in
    match err with
    | Some e => log_Fatal e
    | None => ret tt
    end ;;
    let ctx := WithValue ctx ctxTxKey (VTx tx) in
    log_Header ;;
    invoke (next ctx r) ;;
    Header_Set "Request-id" "Request ids!" ;;
    log_Header ;;
    Commit tx ;;
    ret tt.

Definition jsonResponseMiddleware (ap : App) (next : Handler) : Handler :=
  fun r =>
    Header_Set "Content-type" "application/json" ;;
    next r.

Definition sendSimpleErrorMessage (ap : App) (msg : string) : M unit :=
  WriteHeader StatusInternalServerError ;;
  Encode_message msg.

Definition sendSimpleMessage (ap : App) (msg : string) : M unit :=
  WriteHeader StatusOK ;;
  Encode_message msg.

Definition EchoServer (ap : EchoApp) : HandlerC :=
  fun ctx r =>
    let msg := "hello, server!" in
    sendSimpleMessage (EchoApp_App ap) msg.

Definition EchoDatabase (ap : EchoApp) : HandlerC :=
  fun ctx r =>
    let* tx := getTx ctx in
    let* (t, err) := Tx_QueryRow_Scan tx "SELECT now()" in
    match err with
    | Some _ => sendSimpleErrorMessage (EchoApp_App ap) "failed to access db"
    | None =>
        let msg := "hello, database! at " +:+ t in
        Header_Set "EchoDatabase" "yes" ;;
        WriteHeader StatusOK ;;
        log_Header ;;
        sendSimpleMessage (EchoApp_App ap) msg
    end.

(** The chain of [main] around the handler of a route, from the root
    context. *)
Definition chain (ap : App) (h : HandlerC) : Handler :=
  recoverMiddleware ap
    (loggingMiddleware ap
       (jsonResponseMiddleware ap
          (transactionMiddleware ap h Background))).

(** The routes of [main] under the group /api; the chain wraps the router,
    so each of them runs under [transactionMiddleware]. *)
Definition routes (echoApp : EchoApp) : list (string * HandlerC) :=
  [("/echo/server", EchoServer echoApp);
   ("/echo/database", EchoDatabase echoApp)].

End Chain.

(** ** The handlers with a result (server.go, lines 194-418) *)

Module Custom.

Record DBApp := { DBApp_App : App; DBApp_Name : string }.

(** [AppHandlerC]: a handler that returns its status and its error. *)
Definition AppHandlerC : Type := Context -> Request -> M (Z * option error).

Definition AppHandlerC_ServeHTTPC (ah : AppHandlerC) : HandlerC :=
  fun ctx r =>
    let* (status, err) := ah ctx r in
    match err with
    | Some e => http_Error e status
    | None => ret tt
    end.

Record TransactionHandlerC := { TransactionHandlerC_App : App; H : AppHandlerC }.

Definition TransactionHandlerC_ServeHTTPC (ah : TransactionHandlerC) : HandlerC :=
  fun ctx r =>
    let* (tx, err) := Begin in
    defer (Rollback tx)
      (match err with
       | Some e => http_Error e StatusInternalServerError
       | None => ret tt
       end ;;
       let ctx := WithValue ctx ctxTxKey (VTx tx) in
       let* (status, err) := invoke (H ah ctx r) in
       match err with
       | Some e => http_Error e status
       | None => ret tt
       end).

Definition EchoServer (ap : EchoApp) : AppHandlerC :=
  fun ctx r =>
    Write "hello, server!" ;;
    ret (StatusOK, None).

Definition EchoDatabase (ap : EchoApp) : AppHandlerC :=
  fun ctx r =>
    let* tx := getTx ctx in
    let* (t, err) := Tx_QueryRow_Scan tx "SELECT now()" in
    match err with
    | Some e => ret (StatusInternalServerError, Some e)
    | None =>
        let msg := "hello, database! at " +:+ t in
        Write msg ;;
        ret (StatusOK, None)
    end.

Definition helloctx : HandlerC :=
  fun ctx r => Write "hello, world!".

Definition helloret : AppHandlerC :=
  fun ctx r =>
    Write "hello, world!" ;;
    ret (StatusOK, None).

Definition hellotran : AppHandlerC :=
  fun ctx r =>
    let* tx := getTx ctx in
    let* (t, err) := Tx_QueryRow_Scan tx "SELECT now()" in
    match err with
    | Some e => ret (StatusInternalServerError, Some e)
    | None =>
        let msg := "hello, database! at " +:+ t in
        Write msg ;;
        ret (StatusOK, None)
    end.

Definition tranSelect : AppHandlerC :=
  fun ctx r =>
    let* tx := getTx ctx in
    let* (t, err) := Tx_QueryRow_Scan tx "SELECT now()" in
    match err with
    | Some e => ret (StatusInternalServerError, Some e)
    | None =>
        Write ("hello, from database at " +:+ t +:+ " !") ;;
        ret (StatusOK, None)
    end.

Definition notranSelect (app : DBApp) : AppHandlerC :=
  fun ctx r =>
    let* (t, err) := DB_QueryRow_Scan "SELECT now()" in
    match err with
    | Some e => ret (StatusInternalServerError, Some e)
    | None =>
        Write ("hello, from database at " +:+ t +:+ " !") ;;
        ret (StatusOK, None)
    end.

(** The handlers of the program that return a result, as [main] registers
    them. *)
Definition result_handlers (echoApp : EchoApp) (dbApp : DBApp) : list AppHandlerC :=
  [EchoServer echoApp; EchoDatabase echoApp; helloret; hellotran; tranSelect;
   notranSelect dbApp].

(** The routes of [main] under the group /api. *)
Definition routes (app : App) (echoApp : EchoApp) (dbApp : DBApp) : list (string * HandlerC) :=
  [("/echo/server", AppHandlerC_ServeHTTPC (EchoServer echoApp));
   ("/echo/database",
    TransactionHandlerC_ServeHTTPC
      {| TransactionHandlerC_App := app; H := EchoDatabase echoApp |});
   ("/hello/context1", helloctx);
   ("/hello/context2", AppHandlerC_ServeHTTPC helloret);
   ("/hello/context3",
    TransactionHandlerC_ServeHTTPC {| TransactionHandlerC_App := app; H := hellotran |});
   ("/select/tran",
    TransactionHandlerC_ServeHTTPC {| TransactionHandlerC_App := app; H := tranSelect |});
   ("/select/notran", AppHandlerC_ServeHTTPC (notranSelect dbApp))].

(** The chain of [main] around the handler of a route, from the root
    context. *)
Definition chain (ap : App) (h : HandlerC) : Handler :=
  recoverMiddleware ap (loggingMiddleware ap (h Background)).

End Custom.

(** ** Counting what happened to a transaction *)

Definition is_commit (id : TxId) (e : Event) : bool :=
  match e with Committed i _ => Nat.eqb i id | _ => false end.

Definition is_rollback (id : TxId) (e : Event) : bool :=
  match e with RolledBack i _ => Nat.eqb i id | _ => false end.

Definition commits (id : TxId) (tr : list Event) : nat :=
  length (List.filter (is_commit id) tr).

Definition rollbacks (id : TxId) (tr : list Event) : nat :=
  length (List.filter (is_rollback id) tr).

Definition invocations (tr : list Event) : nat :=
  length (List.filter (fun e => match e with Invoked => true | _ => false end) tr).

(** A body that is a JSON object with the one member [message], as the
    encoder prints it. *)
Definition is_message_object (b : string) : Prop :=
  exists msg, b = message_object msg +:+ newline.

Definition is_5xx (code : Z) : Prop := 500 <= code <= 599.

Definition is_2xx (code : Z) : Prop := 200 <= code <= 299.

(** A context that went through a transaction wrapper holds a [sql.Tx]
    pointer under [ctxTxKey]. *)
Definition holds_tx (ctx : Context) : bool :=
  match ctx !! ctxTxKey with
  | Some (VTx _) => true
  | _ => false
  end.

(** Between two requests every transaction that was begun is finalized,
    and no other transaction is. *)
Definition settled (tr : list Event) : Prop :=
  forall id : TxId, tx_done id tr = true <-> (id < fresh_tx tr)%nat.

(** ** Sample requests *)

Module Sample.

Definition app : App :=
  {| Name := "app";
     Config := {| DBURI := "localhost"; DBPort := "5432"; DBUserName := "pgtest";
                  DBName := "pgtest"; ServerPort := "8991"; AppName := "" |} |}.

Definition echoApp : EchoApp := {| EchoApp_App := app; EchoApp_Name := "echo" |}.

Definition dbApp : Custom.DBApp := {| Custom.DBApp_App := app; Custom.DBApp_Name := "db" |}.

Definition now : Time := "2016-05-01 10:00:00.000000 +0900 JST".

Definition healthy : Driver :=
  {| begin_err := None; query_row := fun _ => inl now;
     commit_err := None; rollback_err := None |}.

Definition bad_query : Driver :=
  {| begin_err := None; query_row := fun _ => inr "pq: syntax error at or near now";
     commit_err := None; rollback_err := None |}.

Definition no_connection : Driver :=
  {| begin_err := Some "dial tcp 127.0.0.1:5432: connection refused";
     query_row := fun _ => inl now;
     commit_err := None; rollback_err := None |}.

Definition bad_finalize : Driver :=
  {| begin_err := None; query_row := fun _ => inr "pq: syntax error at or near now";
     commit_err := Some "driver: bad connection";
     rollback_err := Some "driver: bad connection" |}.

(** The world at the start of a request: nothing written, nothing logged. *)
Definition start (d : Driver) : World :=
  {| driver := d;
     resp := {| header := ∅; sent := None; body := "" |};
     logs := [];
     trace := [] |}.

Definition get (url : string) : Request := {| Method := "GET"; URL := url |}.

Definition wrapped (h : Custom.AppHandlerC) : HandlerC :=
  Custom.TransactionHandlerC_ServeHTTPC
    {| Custom.TransactionHandlerC_App := app; Custom.H := h |}.

(** A handler that faults. *)
Definition faulty : HandlerC := fun ctx r => panic (PanicMsg "boom").

End Sample.

(** ** Facts about the trace *)

Lemma commits_app id tr1 tr2 : commits id (tr1 ++ tr2) = (commits id tr1 + commits id tr2)%nat.
Proof. unfold commits. by rewrite List.filter_app, length_app. Qed.

Lemma rollbacks_app id tr1 tr2 :
  rollbacks id (tr1 ++ tr2) = (rollbacks id tr1 + rollbacks id tr2)%nat.
Proof. unfold rollbacks. by rewrite List.filter_app, length_app. Qed.

Lemma tx_done_app id tr1 tr2 : tx_done id (tr1 ++ tr2) = tx_done id tr1 || tx_done id tr2.
Proof. unfold tx_done. apply existsb_app. Qed.

Lemma open_not_finalized id tr :
  tx_done id tr = false -> commits id tr = 0%nat /\ rollbacks id tr = 0%nat.
Proof.
  unfold tx_done, commits, rollbacks.
  induction tr as [|e tr IH]; simpl; [done|].
  intros Hd. apply orb_false_iff in Hd as [He Htr].
  destruct (IH Htr) as [Hc Hr].
  destruct e; simpl in *; rewrite ?He; simpl; auto.
Qed.

Lemma rollbacks_self id res : rollbacks id [RolledBack id res] = 1%nat.
Proof. unfold rollbacks. simpl. by rewrite Nat.eqb_refl. Qed.

Lemma commits_self id res : commits id [Committed id res] = 1%nat.
Proof. unfold commits. simpl. by rewrite Nat.eqb_refl. Qed.

Lemma tx_done_rolled_back id res tr : tx_done id (tr ++ [RolledBack id res]) = true.
Proof. rewrite tx_done_app. simpl. rewrite Nat.eqb_refl. by rewrite orb_true_r. Qed.

Lemma tx_done_committed id res tr : tx_done id (tr ++ [Committed id res]) = true.
Proof. rewrite tx_done_app. simpl. rewrite Nat.eqb_refl. by rewrite orb_true_r. Qed.

(** ** Facts about the response writer *)

(** On a writer whose header is not written, [http.Error] with a valid
    code that carries a body writes that code and the text on one line. *)
Lemma http_Error_unsent e code s :
  sent (resp s) = None ->
  validWriteHeaderCode code = true ->
  bodyAllowedForStatus code = true ->
  exists s',
    http_Error e code s = (Ret tt, s') /\
    sent_status (resp s') = Some code /\
    body (resp s') = body (resp s) +:+ e +:+ newline /\
    logs s' = logs s /\ trace s' = trace s /\ driver s' = driver s.
Proof.
  intros Hs Hv Hb.
  unfold http_Error, bind, Header_Set, WriteHeader, Write, bind, WriteHeader; simpl.
  rewrite Hs, Hv. simpl. rewrite Hb. simpl.
  eexists. split; [reflexivity|]. simpl. auto.
Qed.

(** [http.Error] writes to the response only. *)
Lemma http_Error_keeps e code s :
  logs (snd (http_Error e code s)) = logs s /\
  trace (snd (http_Error e code s)) = trace s /\
  driver (snd (http_Error e code s)) = driver s.
Proof.
  unfold http_Error, bind, Header_Set, WriteHeader, Write, bind, WriteHeader; simpl.
  destruct (sent (resp s)) as [[c h]|]; simpl.
  - destruct (bodyAllowedForStatus c); simpl; auto.
  - destruct (validWriteHeaderCode code); simpl; auto.
    destruct (bodyAllowedForStatus code); simpl; auto.
Qed.

Lemma http_Error_no_exit e code s c : fst (http_Error e code s) <> Exit c.
Proof.
  unfold http_Error, bind, Header_Set, WriteHeader, Write, bind, WriteHeader; simpl.
  destruct (sent (resp s)) as [[c' h]|]; simpl.
  - destruct (bodyAllowedForStatus c'); simpl; discriminate.
  - destruct (validWriteHeaderCode code); simpl; [|discriminate].
    destruct (bodyAllowedForStatus code); simpl; discriminate.
Qed.

(** ** The transaction of a wrapped request *)

(** Once [Begin] has answered with transaction [fresh_tx (trace s)], the
    rest of [ServeHTTPC] runs under the deferred rollback of it. *)
Lemma ServeHTTPC_begun (ah : Custom.TransactionHandlerC) (ctx : Context)
    (r : Request) (s : World) :
  begin_err (driver s) = None ->
  Custom.TransactionHandlerC_ServeHTTPC ah ctx r s =
  defer (Rollback (Some (fresh_tx (trace s))))
    (let* (status, err) :=
       invoke (Custom.H ah (WithValue ctx ctxTxKey (VTx (Some (fresh_tx (trace s))))) r) in
     match err with
     | Some e => http_Error e status
     | None => ret tt
     end) (add_event (Begun (fresh_tx (trace s))) s).
Proof.
  intros Hb. unfold Custom.TransactionHandlerC_ServeHTTPC, bind at 1, Begin.
  rewrite Hb. reflexivity.
Qed.

(** The deferred rollback of an open transaction reaches the driver once and
    leaves outcome, response and log as they are. *)
Lemma defer_Rollback_open {A} (body : M A) id s o s1 :
  body s = (o, s1) ->
  (forall c, o <> Exit c) ->
  tx_done id (trace s1) = false ->
  defer (Rollback (Some id)) body s =
  (o, add_event (RolledBack id (rollback_err (driver s1))) s1).
Proof.
  intros Hbody Ho Hopen. unfold defer, Rollback. rewrite Hbody, Hopen.
  destruct o; try reflexivity. by destruct (Ho code).
Qed.

(** What the wrapper does after the handler came back, by returning or by
    panicking, with the transaction still open: the answer to the handler's
    result, then the rollback. *)
Lemma ServeHTTPC_after_handler (ah : Custom.TransactionHandlerC) (ctx : Context)
    (r : Request) (s s2 s3 : World) (o2 : Outcome (Z * option error)) (o : Outcome unit) :
  begin_err (driver s) = None ->
  Custom.H ah (WithValue ctx ctxTxKey (VTx (Some (fresh_tx (trace s))))) r
    (add_event Invoked (add_event (Begun (fresh_tx (trace s))) s)) = (o2, s2) ->
  match o2 with
  | Ret (st, Some e) => http_Error e st s2
  | Ret (_, None) => (Ret tt, s2)
  | Panic v => (Panic v, s2)
  | Exit c => (Exit c, s2)
  end = (o, s3) ->
  (forall c, o2 <> Exit c) ->
  tx_done (fresh_tx (trace s)) (trace s2) = false ->
  Custom.TransactionHandlerC_ServeHTTPC ah ctx r s =
  (o, add_event (RolledBack (fresh_tx (trace s)) (rollback_err (driver s3))) s3) /\
  trace s3 = trace s2 /\ logs s3 = logs s2.
Proof.
  intros Hb Hh Hans Ho2 Hopen.
  assert (Hkeep : trace s3 = trace s2 /\ logs s3 = logs s2 /\ forall c, o <> Exit c).
  { destruct o2 as [[st [e|]]|v|c].
    - destruct (http_Error_keeps e st s2) as (Hl & Ht & _).
      pose proof (http_Error_no_exit e st s2) as Hx.
      rewrite Hans in Hl, Ht, Hx. simpl in *. auto.
    - inversion Hans; subst. split_and!; auto; discriminate.
    - inversion Hans; subst. split_and!; auto; discriminate.
    - by destruct (Ho2 c). }
  destruct Hkeep as (Ht & Hl & Hx). split; [|auto].
  rewrite ServeHTTPC_begun by done.
  apply defer_Rollback_open; [|done|by rewrite Ht].
  unfold bind, invoke. rewrite Hh.
  destruct o2 as [[st [e|]]|v|c]; exact Hans.
Qed.

(** Whenever the handler comes back with the transaction still open, the
    wrapper has rolled it back once and has not committed it. *)
Lemma ServeHTTPC_rolls_back (ah : Custom.TransactionHandlerC) (ctx : Context)
    (r : Request) (s s2 : World) (o2 : Outcome (Z * option error)) :
  begin_err (driver s) = None ->
  Custom.H ah (WithValue ctx ctxTxKey (VTx (Some (fresh_tx (trace s))))) r
    (add_event Invoked (add_event (Begun (fresh_tx (trace s))) s)) = (o2, s2) ->
  (forall c, o2 <> Exit c) ->
  tx_done (fresh_tx (trace s)) (trace s2) = false ->
  let s' := snd (Custom.TransactionHandlerC_ServeHTTPC ah ctx r s) in
  rollbacks (fresh_tx (trace s)) (trace s') = 1%nat /\
  commits (fresh_tx (trace s)) (trace s') = 0%nat /\
  tx_done (fresh_tx (trace s)) (trace s') = true.
Proof.
  intros Hb Hh Ho2 Hopen.
  destruct (match o2 with
            | Ret (st, Some e) => http_Error e st s2
            | Ret (_, None) => (Ret tt, s2)
            | Panic v => (Panic v, s2)
            | Exit c => (Exit c, s2)
            end) as [o s3] eqn:Hans.
  destruct (ServeHTTPC_after_handler ah ctx r s s2 s3 o2 o Hb Hh Hans Ho2 Hopen)
    as (-> & Ht & _).
  simpl. rewrite Ht, rollbacks_app, commits_app, rollbacks_self, tx_done_rolled_back.
  destruct (open_not_finalized _ _ Hopen) as [-> ->]. auto.
Qed.

(** C2: when the wrapped handler returns a non-nil error and has left the
    transaction it borrowed open, the wrapper rolls the transaction of the
    request back exactly once and never commits it. *)
Theorem rollback_on_handler_error (ah : Custom.TransactionHandlerC)
    (ctx : Context) (r : Request) (s s2 : World) (st : Z) (e : error) :
  begin_err (driver s) = None ->
  Custom.H ah (WithValue ctx ctxTxKey (VTx (Some (fresh_tx (trace s))))) r
    (add_event Invoked (add_event (Begun (fresh_tx (trace s))) s))
  = (Ret (st, Some e), s2) ->
  tx_done (fresh_tx (trace s)) (trace s2) = false ->
  let s' := snd (Custom.TransactionHandlerC_ServeHTTPC ah ctx r s) in
  rollbacks (fresh_tx (trace s)) (trace s') = 1%nat /\
  commits (fresh_tx (trace s)) (trace s') = 0%nat /\
  tx_done (fresh_tx (trace s)) (trace s') = true.
Proof.
  intros Hb Hh Hopen.
  eapply ServeHTTPC_rolls_back; eauto; discriminate.
Qed.

Lemma rollback_on_handler_error_witness :
  rollbacks 0%nat (trace (snd (Sample.wrapped Custom.tranSelect Background
                             (Sample.get "/api/select/tran")
                             (Sample.start Sample.bad_query)))) = 1%nat /\
  commits 0%nat (trace (snd (Sample.wrapped Custom.tranSelect Background
                           (Sample.get "/api/select/tran")
                           (Sample.start Sample.bad_query)))) = 0%nat /\
  tx_done 0%nat (trace (snd (Sample.wrapped Custom.tranSelect Background
                           (Sample.get "/api/select/tran")
                           (Sample.start Sample.bad_query)))) = true.
Proof.
  eapply (rollback_on_handler_error
            {| Custom.TransactionHandlerC_App := Sample.app; Custom.H := Custom.tranSelect |}
            Background (Sample.get "/api/select/tran") (Sample.start Sample.bad_query)).
  - reflexivity.
  - vm_compute. reflexivity.
  - vm_compute. reflexivity.
Defined.

(** C1: a request to /select/tran on a healthy database.  The handler
    returns status 200 and no error; the wrapper then rolls the transaction
    back and never commits it. *)
Theorem success_is_rolled_back_not_committed :
  let ctx := WithValue Background ctxTxKey (VTx (Some 0%nat)) in
  let r := Sample.get "/api/select/tran" in
  let s := Sample.start Sample.healthy in
  let run := Sample.wrapped Custom.tranSelect Background r s in
  fst (Custom.tranSelect ctx r (add_event Invoked (add_event (Begun 0%nat) s)))
    = Ret (StatusOK, None) /\
  fst run = Ret tt /\
  sent_status (resp (snd run)) = Some StatusOK /\
  trace (snd run) = [Begun 0%nat; Invoked; RolledBack 0%nat None] /\
  commits 0%nat (trace (snd run)) = 0%nat /\
  rollbacks 0%nat (trace (snd run)) = 1%nat.
Proof. vm_compute. repeat split; reflexivity. Qed.

(** C3: a request to /select/tran while the database refuses connections.
    The wrapper writes the 500 response with the text of the error and then
    goes on: it calls the handler with a nil transaction in the context. *)
Theorem begin_failure_still_invokes_handler :
  let r := Sample.get "/api/select/tran" in
  let s := Sample.start Sample.no_connection in
  let run := Sample.wrapped Custom.tranSelect Background r s in
  sent_status (resp (snd run)) = Some StatusInternalServerError /\
  body (resp (snd run)) = "dial tcp 127.0.0.1:5432: connection refused" +:+ newline /\
  invocations (trace (snd run)) = 1%nat /\
  fst run = Panic NilDereference.
Proof. vm_compute. repeat split; reflexivity. Qed.

(** C4: a handler that panics under [transactionMiddleware].  No cleanup is
    registered, [tx.Commit()] is not reached, and the transaction stays
    open: neither committed nor rolled back, also after the recover
    middleware has answered. *)
Theorem middleware_leaks_transaction_on_panic :
  let r := Sample.get "/api/echo/database" in
  let s := Sample.start Sample.healthy in
  let run := Chain.transactionMiddleware Sample.app Sample.faulty Background r s in
  let served := Chain.chain Sample.app Sample.faulty r s in
  fst run = Panic (PanicMsg "boom") /\
  trace (snd run) = [Begun 0%nat; Invoked] /\
  tx_done 0%nat (trace (snd run)) = false /\
  rollbacks 0%nat (trace (snd run)) = 0%nat /\
  commits 0%nat (trace (snd run)) = 0%nat /\
  fst served = Ret tt /\
  tx_done 0%nat (trace (snd served)) = false.
Proof. vm_compute. repeat split; reflexivity. Qed.

(** X6: under [TransactionHandlerC] a handler that panics with the
    transaction open has it rolled back exactly once by the deferred call,
    and the panic goes on to the caller. *)
Lemma rollback_on_handler_panic (ah : Custom.TransactionHandlerC)
    (ctx : Context) (r : Request) (s s2 : World) (v : PanicValue) :
  begin_err (driver s) = None ->
  Custom.H ah (WithValue ctx ctxTxKey (VTx (Some (fresh_tx (trace s))))) r
    (add_event Invoked (add_event (Begun (fresh_tx (trace s))) s))
  = (Panic v, s2) ->
  tx_done (fresh_tx (trace s)) (trace s2) = false ->
  Custom.TransactionHandlerC_ServeHTTPC ah ctx r s =
  (Panic v, add_event (RolledBack (fresh_tx (trace s)) (rollback_err (driver s2))) s2) /\
  rollbacks (fresh_tx (trace s))
    (trace (snd (Custom.TransactionHandlerC_ServeHTTPC ah ctx r s))) = 1%nat.
Proof.
  intros Hb Hh Hopen.
  split.
  - eapply ServeHTTPC_after_handler; eauto; discriminate.
  - eapply ServeHTTPC_rolls_back; eauto; discriminate.
Qed.

(** ** The transaction accessor *)

Lemma getTx_unwrapped (ctx : Context) (s : World) :
  holds_tx ctx = false -> getTx ctx s = (Panic InterfaceConversion, s).
Proof.
  unfold holds_tx, getTx. intros Hc.
  destruct (ctx !! ctxTxKey) as [[tx|v]|]; done.
Qed.

(** C5: on a context that holds no transaction under the key, [getTx]
    panics and returns no pointer; each handler that calls it panics with
    the world as it found it, so with nothing written to the response, also
    when dispatched as an unwrapped route. *)
Theorem getTx_panics_on_unwrapped_context (echoApp : EchoApp) (ctx : Context)
    (r : Request) (s : World) :
  holds_tx ctx = false ->
  getTx ctx s = (Panic InterfaceConversion, s) /\
  Custom.EchoDatabase echoApp ctx r s = (Panic InterfaceConversion, s) /\
  Custom.hellotran ctx r s = (Panic InterfaceConversion, s) /\
  Custom.tranSelect ctx r s = (Panic InterfaceConversion, s) /\
  Chain.EchoDatabase echoApp ctx r s = (Panic InterfaceConversion, s) /\
  Custom.AppHandlerC_ServeHTTPC Custom.tranSelect ctx r s = (Panic InterfaceConversion, s).
Proof.
  intros Hc. pose proof (getTx_unwrapped ctx s Hc) as Hg.
  unfold Custom.AppHandlerC_ServeHTTPC, Custom.EchoDatabase, Custom.hellotran,
    Custom.tranSelect, Chain.EchoDatabase, bind.
  rewrite Hg. repeat split.
Qed.

Lemma getTx_panics_on_unwrapped_context_witness :
  getTx Background (Sample.start Sample.healthy)
    = (Panic InterfaceConversion, Sample.start Sample.healthy) /\
  Custom.AppHandlerC_ServeHTTPC Custom.tranSelect Background
    (Sample.get "/api/select/notran") (Sample.start Sample.healthy)
    = (Panic InterfaceConversion, Sample.start Sample.healthy).
Proof.
  pose proof (getTx_panics_on_unwrapped_context Sample.echoApp Background
                (Sample.get "/api/select/notran") (Sample.start Sample.healthy)) as Hp.
  split; apply Hp; reflexivity.
Defined.

(** ** The dispatch of a handler result *)

(** C6: [AppHandlerC] and, after a successful [Begin], [TransactionHandlerC]
    answer a result with a non-nil error by [http.Error] with the returned
    status and the text of the error: on a header not yet written, and for a
    code that [WriteHeader] takes and that carries a body, the response has
    that status and the text on one line.  On a nil error they write
    nothing and the response is as the handler left it. *)
Theorem dispatch_of_handler_result :
  (forall (ah : Custom.AppHandlerC) (ctx : Context) (r : Request) (s s1 : World)
          (st : Z) (err : option error),
      ah ctx r s = (Ret (st, err), s1) ->
      let run := Custom.AppHandlerC_ServeHTTPC ah ctx r s in
      match err with
      | None => run = (Ret tt, s1)
      | Some e =>
          run = http_Error e st s1 /\
          logs (snd run) = logs s1 /\ trace (snd run) = trace s1 /\
          (sent (resp s1) = None ->
           validWriteHeaderCode st = true ->
           bodyAllowedForStatus st = true ->
           fst run = Ret tt /\
           sent_status (resp (snd run)) = Some st /\
           body (resp (snd run)) = body (resp s1) +:+ e +:+ newline)
      end) /\
  (forall (ah : Custom.TransactionHandlerC) (ctx : Context) (r : Request) (s s2 : World)
          (st : Z) (err : option error),
      begin_err (driver s) = None ->
      Custom.H ah (WithValue ctx ctxTxKey (VTx (Some (fresh_tx (trace s))))) r
        (add_event Invoked (add_event (Begun (fresh_tx (trace s))) s))
      = (Ret (st, err), s2) ->
      tx_done (fresh_tx (trace s)) (trace s2) = false ->
      let run := Custom.TransactionHandlerC_ServeHTTPC ah ctx r s in
      match err with
      | None => fst run = Ret tt /\ resp (snd run) = resp s2
      | Some e =>
          fst run = fst (http_Error e st s2) /\
          resp (snd run) = resp (snd (http_Error e st s2)) /\
          (sent (resp s2) = None ->
           validWriteHeaderCode st = true ->
           bodyAllowedForStatus st = true ->
           fst run = Ret tt /\
           sent_status (resp (snd run)) = Some st /\
           body (resp (snd run)) = body (resp s2) +:+ e +:+ newline)
      end).
Proof.
  split.
  - intros ah ctx r s s1 st err Hh. cbv zeta.
    unfold Custom.AppHandlerC_ServeHTTPC, bind. rewrite Hh.
    destruct err as [e|]; [|reflexivity].
    destruct (http_Error_keeps e st s1) as (Hl & Ht & _).
    split_and!; auto.
    intros Hs Hv Hb.
    destruct (http_Error_unsent e st s1 Hs Hv Hb) as (s2 & -> & Hst & Hbody & _).
    auto.
  - intros ah ctx r s s2 st err Hb Hh Hopen. cbv zeta.
    destruct err as [e|].
    + destruct (http_Error e st s2) as [o s3] eqn:He.
      destruct (ServeHTTPC_after_handler ah ctx r s s2 s3 (Ret (st, Some e)) o
                  Hb Hh He) as (-> & _); [discriminate|done|].
      simpl. split_and!; auto.
      intros Hs Hv Hba.
      destruct (http_Error_unsent e st s2 Hs Hv Hba) as (s4 & He' & Hst & Hbody & _).
      rewrite He in He'. inversion He'; subst. auto.
    + destruct (ServeHTTPC_after_handler ah ctx r s s2 s2 (Ret (st, None)) (Ret tt)
                  Hb Hh eq_refl) as (-> & _); [discriminate|done|].
      simpl. auto.
Qed.

Lemma dispatch_of_handler_result_witness :
  (fst (Custom.AppHandlerC_ServeHTTPC (Custom.notranSelect Sample.dbApp) Background
          (Sample.get "/api/select/notran") (Sample.start Sample.bad_query)) = Ret tt /\
   sent_status
     (resp (snd (Custom.AppHandlerC_ServeHTTPC (Custom.notranSelect Sample.dbApp)
                   Background (Sample.get "/api/select/notran")
                   (Sample.start Sample.bad_query))))
   = Some StatusInternalServerError /\
   body
     (resp (snd (Custom.AppHandlerC_ServeHTTPC (Custom.notranSelect Sample.dbApp)
                   Background (Sample.get "/api/select/notran")
                   (Sample.start Sample.bad_query))))
   = "" +:+ "pq: syntax error at or near now" +:+ newline) /\
  fst (Sample.wrapped Custom.tranSelect Background (Sample.get "/api/select/tran")
         (Sample.start Sample.healthy)) = Ret tt.
Proof.
  split.
  - apply (proj1 dispatch_of_handler_result (Custom.notranSelect Sample.dbApp) Background
             (Sample.get "/api/select/notran") (Sample.start Sample.bad_query)
             (Sample.start Sample.bad_query) StatusInternalServerError
             (Some "pq: syntax error at or near now"));
      reflexivity.
  - refine (proj1 (proj2 dispatch_of_handler_result
             {| Custom.TransactionHandlerC_App := Sample.app; Custom.H := Custom.tranSelect |}
             Background (Sample.get "/api/select/tran") (Sample.start Sample.healthy)
             _ StatusOK None _ _ _)); vm_compute; reflexivity.
Defined.

(** ** The results of the handlers *)

(** A write on a header not yet written answers with status 200. *)
Lemma Write_unsent (p : string) (s : World) :
  sent (resp s) = None ->
  exists s', Write p s = (Ret tt, s') /\ sent_status (resp s') = Some StatusOK /\
             body (resp s') = body (resp s) +:+ p.
Proof.
  intros Hs. unfold Write, bind, WriteHeader. rewrite Hs. simpl.
  eexists. split; [reflexivity|]. simpl. auto.
Qed.

(** One of the handlers that read the time through the transaction. *)
Lemma tx_reader_result (render : Time -> string) (ctx : Context) (s s1 : World)
    (st : Z) (err : option error) :
  sent (resp s) = None ->
  (let* tx := getTx ctx in
   let* (t, err) := Tx_QueryRow_Scan tx "SELECT now()" in
   match err with
   | Some e => ret (StatusInternalServerError, Some e)
   | None => Write (render t) ;; ret (StatusOK, None)
   end) s = (Ret (st, err), s1) ->
  match err with
  | Some _ => st = StatusInternalServerError
  | None => st = StatusOK /\ sent_status (resp s1) = Some st
  end.
Proof.
  intros Hs. unfold bind at 1, getTx.
  destruct (ctx !! ctxTxKey) as [[tx|v]|]; [|discriminate..].
  unfold ret, bind at 1, Tx_QueryRow_Scan.
  destruct tx as [id|]; [|discriminate].
  destruct (tx_done id (trace s)); simpl.
  - intros H; inversion H; subst. reflexivity.
  - destruct (query_row (driver s) "SELECT now()") as [t|e]; simpl.
    + destruct (Write_unsent (render t) s Hs) as (s' & Hw & Hst & _).
      unfold bind. rewrite Hw. intros H; inversion H; subst. auto.
    + intros H; inversion H; subst. reflexivity.
Qed.

(** C8: each handler of the program that returns a result returns status
    500, not a 2xx code, with a non-nil error; with a nil error it returns
    200, and 200 is the status of the response it has written (on a header
    not written before the handler ran). *)
Theorem handlers_respect_result_invariant (echoApp : EchoApp) (dbApp : Custom.DBApp)
    (h : Custom.AppHandlerC) (ctx : Context) (r : Request) (s s1 : World)
    (st : Z) (err : option error) :
  In h (Custom.result_handlers echoApp dbApp) ->
  sent (resp s) = None ->
  h ctx r s = (Ret (st, err), s1) ->
  match err with
  | Some _ => st = StatusInternalServerError /\ ~ is_2xx st
  | None => st = StatusOK /\ sent_status (resp s1) = Some st
  end.
Proof.
  intros Hin Hs Hrun.
  assert (Hres : match err with
                 | Some _ => st = StatusInternalServerError
                 | None => st = StatusOK /\ sent_status (resp s1) = Some st
                 end).
  { simpl in Hin.
    destruct Hin as [<-|[<-|[<-|[<-|[<-|[<-|[]]]]]]].
    - unfold Custom.EchoServer, bind in Hrun.
      destruct (Write_unsent "hello, server!" s Hs) as (s' & Hw & Hst & _).
      rewrite Hw in Hrun. inversion Hrun; subst. auto.
    - exact (tx_reader_result (fun t => "hello, database! at " +:+ t) ctx s s1 st err Hs Hrun).
    - unfold Custom.helloret, bind in Hrun.
      destruct (Write_unsent "hello, world!" s Hs) as (s' & Hw & Hst & _).
      rewrite Hw in Hrun. inversion Hrun; subst. auto.
    - exact (tx_reader_result (fun t => "hello, database! at " +:+ t) ctx s s1 st err Hs Hrun).
    - exact (tx_reader_result (fun t => "hello, from database at " +:+ t +:+ " !")
               ctx s s1 st err Hs Hrun).
    - unfold Custom.notranSelect, bind at 1, DB_QueryRow_Scan in Hrun.
      destruct (query_row (driver s) "SELECT now()") as [t|e]; simpl in Hrun.
      + destruct (Write_unsent ("hello, from database at " +:+ t +:+ " !") s Hs)
          as (s' & Hw & Hst & _).
        unfold bind in Hrun. rewrite Hw in Hrun. inversion Hrun; subst. auto.
      + inversion Hrun; subst. reflexivity. }
  destruct err; [|exact Hres].
  split; [exact Hres|]. subst st. unfold is_2xx, StatusInternalServerError. lia.
Qed.

Lemma handlers_respect_result_invariant_witness :
  (StatusInternalServerError = StatusInternalServerError /\
   ~ is_2xx StatusInternalServerError) /\
  (StatusOK = StatusOK /\
   sent_status
     (resp (snd (Custom.notranSelect Sample.dbApp Background
                   (Sample.get "/api/select/notran") (Sample.start Sample.healthy))))
   = Some StatusOK).
Proof.
  split.
  - apply (handlers_respect_result_invariant Sample.echoApp Sample.dbApp
             Custom.tranSelect (WithValue Background ctxTxKey (VTx (Some 0%nat)))
             (Sample.get "/api/select/tran") (Sample.start Sample.bad_query)
             (Sample.start Sample.bad_query) StatusInternalServerError
             (Some "pq: syntax error at or near now")).
    + simpl. auto 10.
    + reflexivity.
    + vm_compute. reflexivity.
  - apply (handlers_respect_result_invariant Sample.echoApp Sample.dbApp
             (Custom.notranSelect Sample.dbApp) Background
             (Sample.get "/api/select/notran") (Sample.start Sample.healthy)
             (snd (Custom.notranSelect Sample.dbApp Background
                     (Sample.get "/api/select/notran") (Sample.start Sample.healthy)))
             StatusOK None).
    + simpl. auto 10.
    + reflexivity.
    + vm_compute. reflexivity.
Defined.

(** ** A failed Begin *)

(** When [Begin] fails the rest of [ServeHTTPC] runs under the deferred
    rollback of the nil pointer, and the handler is called after the error
    response. *)
Lemma ServeHTTPC_not_begun (ah : Custom.TransactionHandlerC) (ctx : Context)
    (r : Request) (s : World) (e : error) :
  begin_err (driver s) = Some e ->
  Custom.TransactionHandlerC_ServeHTTPC ah ctx r s =
  defer (Rollback None)
    (http_Error e StatusInternalServerError ;;
     let* (status, err) :=
       invoke (Custom.H ah (WithValue ctx ctxTxKey (VTx None)) r) in
     match err with
     | Some e => http_Error e status
     | None => ret tt
     end) s.
Proof.
  intros Hb. unfold Custom.TransactionHandlerC_ServeHTTPC, bind at 1, Begin.
  rewrite Hb. reflexivity.
Qed.

(** The deferred rollback of the nil pointer panics when the function
    unwinds, whatever the body did short of ending the process. *)
Lemma defer_Rollback_nil {A} (body : M A) (s s1 : World) (o : Outcome A) :
  body s = (o, s1) ->
  (forall c, o <> Exit c) ->
  defer (Rollback None) body s = (Panic NilDereference, s1).
Proof.
  intros Hbody Ho. unfold defer, Rollback. rewrite Hbody.
  destruct o; try reflexivity. by destruct (Ho code).
Qed.

Lemma getTx_wrapped (ctx : Context) (tx : option TxId) (s : World) :
  getTx (WithValue ctx ctxTxKey (VTx tx)) s = (Ret tx, s).
Proof. unfold getTx, WithValue. by rewrite lookup_insert_eq. Qed.

(** A handler that reads the time through the transaction of its context,
    on the nil transaction: the query dereferences the nil pointer. *)
Lemma tx_reader_nil (render : Time -> string) (ctx : Context) (s : World) :
  (let* tx := getTx (WithValue ctx ctxTxKey (VTx None)) in
   let* (t, err) := Tx_QueryRow_Scan tx "SELECT now()" in
   match err with
   | Some e => ret (StatusInternalServerError, Some e)
   | None => Write (render t) ;; ret (StatusOK, None)
   end) s = (Panic NilDereference, s).
Proof. unfold bind at 1. rewrite getTx_wrapped. reflexivity. Qed.

(** The whole run after a failed [Begin]: the error response, the call of
    the handler on the nil transaction, the answer to its result, and the
    panic of the deferred rollback in the world the answer left. *)
Lemma ServeHTTPC_begin_failed (ah : Custom.TransactionHandlerC) (ctx : Context)
    (r : Request) (s s1 s2 s3 : World) (e : error)
    (o2 : Outcome (Z * option error)) (o : Outcome unit) :
  begin_err (driver s) = Some e ->
  http_Error e StatusInternalServerError s = (Ret tt, s1) ->
  Custom.H ah (WithValue ctx ctxTxKey (VTx None)) r (add_event Invoked s1) = (o2, s2) ->
  match o2 with
  | Ret (st, Some e') => http_Error e' st s2
  | Ret (_, None) => (Ret tt, s2)
  | Panic v => (Panic v, s2)
  | Exit c => (Exit c, s2)
  end = (o, s3) ->
  (forall c, o2 <> Exit c) ->
  Custom.TransactionHandlerC_ServeHTTPC ah ctx r s = (Panic NilDereference, s3) /\
  trace s3 = trace s2.
Proof.
  intros Hb He Hh Hans Ho2.
  assert (Hkeep : trace s3 = trace s2 /\ forall c, o <> Exit c).
  { destruct o2 as [[st [e'|]]|v|c].
    - destruct (http_Error_keeps e' st s2) as (_ & Ht & _).
      pose proof (http_Error_no_exit e' st s2) as Hx.
      rewrite Hans in Ht, Hx. simpl in *. auto.
    - inversion Hans; subst. split; [done|discriminate].
    - inversion Hans; subst. split; [done|discriminate].
    - by destruct (Ho2 c). }
  destruct Hkeep as [Ht Hx]. split; [|exact Ht].
  rewrite ServeHTTPC_not_begun with (e := e) by done.
  apply defer_Rollback_nil with (o := o); [|exact Hx].
  unfold bind at 1. rewrite He. unfold bind, invoke. rewrite Hh.
  destruct o2 as [[st [e'|]]|v|c]; exact Hans.
Qed.

(** C10: when [Begin] fails, on a response not yet written, the run of the
    wrapper is this.  It writes the 500 response with the text of the
    error; it then calls the handler, on that response and with the nil
    transaction in the context; and, unless the handler ends the process,
    it ends in the nil-dereference panic of the deferred rollback, with the
    trace the handler left and the response as the handler and the answer
    to its result left it.  For the three handlers that [main] wraps the
    final world is the one after the error response with the call of the
    handler recorded: status 500, the text of the error as body, and no
    transaction begun or rolled back. *)
Theorem begin_failure_ends_in_panic (echoApp : EchoApp) (ah : Custom.TransactionHandlerC)
    (ctx : Context) (r : Request) (s : World) (e : error) :
  begin_err (driver s) = Some e ->
  sent (resp s) = None ->
  (forall c,
      fst (Custom.H ah (WithValue ctx ctxTxKey (VTx None)) r
             (add_event Invoked (snd (http_Error e StatusInternalServerError s))))
      <> Exit c) ->
  let s1 := snd (http_Error e StatusInternalServerError s) in
  let hrun := Custom.H ah (WithValue ctx ctxTxKey (VTx None)) r (add_event Invoked s1) in
  let run := Custom.TransactionHandlerC_ServeHTTPC ah ctx r s in
  sent_status (resp s1) = Some StatusInternalServerError /\
  body (resp s1) = body (resp s) +:+ e +:+ newline /\
  fst run = Panic NilDereference /\
  trace (snd run) = trace (snd hrun) /\
  resp (snd run) =
    resp (match hrun with
          | (Ret (st, Some e'), s2) => snd (http_Error e' st s2)
          | (_, s2) => s2
          end) /\
  (In (Custom.H ah) [Custom.EchoDatabase echoApp; Custom.hellotran; Custom.tranSelect] ->
   run = (Panic NilDereference, add_event Invoked s1) /\
   sent_status (resp (snd run)) = Some StatusInternalServerError /\
   body (resp (snd run)) = body (resp s) +:+ e +:+ newline /\
   trace (snd run) = trace s ++ [Invoked]).
Proof.
  intros Hb Hs Hx. cbv zeta.
  destruct (http_Error_unsent e StatusInternalServerError s Hs eq_refl eq_refl)
    as (s1 & He & Hst & Hbody & _ & Ht1 & _).
  rewrite He in *. simpl in *.
  destruct (Custom.H ah (WithValue ctx ctxTxKey (VTx None)) r (add_event Invoked s1))
    as [o2 s2] eqn:Hh.
  simpl in Hx.
  destruct (match o2 with
            | Ret (st, Some e') => http_Error e' st s2
            | Ret (_, None) => (Ret tt, s2)
            | Panic v => (Panic v, s2)
            | Exit c => (Exit c, s2)
            end) as [o s3] eqn:Hans.
  destruct (ServeHTTPC_begin_failed ah ctx r s s1 s2 s3 e o2 o Hb He Hh Hans)
    as [Hrun Ht3]; [intros c ->; by destruct (Hx c)|].
  rewrite Hrun. simpl. split_and!; auto.
  - destruct o2 as [[st [e'|]]|v|c].
    + by rewrite Hans.
    + by inversion Hans.
    + by inversion Hans.
    + by destruct (Hx c).
  - intros Hin.
    assert (Hnil : (o2, s2) = (Panic NilDereference, add_event Invoked s1)).
    { rewrite <- Hh. simpl in Hin. destruct Hin as [<-|[<-|[<-|[]]]].
      - apply (tx_reader_nil (fun t => "hello, database! at " +:+ t)).
      - apply (tx_reader_nil (fun t => "hello, database! at " +:+ t)).
      - apply (tx_reader_nil (fun t => "hello, from database at " +:+ t +:+ " !")). }
    inversion Hnil; subst o2 s2. inversion Hans; subst o s3.
    simpl. rewrite Ht1. auto.
Qed.

Lemma begin_failure_ends_in_panic_witness :
  fst (Sample.wrapped Custom.hellotran Background (Sample.get "/api/hello/context3")
         (Sample.start Sample.no_connection)) = Panic NilDereference /\
  sent_status
    (resp (snd (Sample.wrapped Custom.hellotran Background
                  (Sample.get "/api/hello/context3")
                  (Sample.start Sample.no_connection))))
  = Some StatusInternalServerError /\
  trace (snd (Sample.wrapped Custom.hellotran Background
                (Sample.get "/api/hello/context3")
                (Sample.start Sample.no_connection)))
  = [] ++ [Invoked].
Proof.
  assert (Hx : forall c,
             fst (Custom.hellotran (WithValue Background ctxTxKey (VTx None))
                    (Sample.get "/api/hello/context3")
                    (add_event Invoked
                       (snd (http_Error "dial tcp 127.0.0.1:5432: connection refused"
                               StatusInternalServerError
                               (Sample.start Sample.no_connection)))))
             <> Exit c).
  { intros c. vm_compute. discriminate. }
  destruct (begin_failure_ends_in_panic Sample.echoApp
              {| Custom.TransactionHandlerC_App := Sample.app; Custom.H := Custom.hellotran |}
              Background (Sample.get "/api/hello/context3")
              (Sample.start Sample.no_connection)
              "dial tcp 127.0.0.1:5432: connection refused" eq_refl eq_refl Hx)
    as (_ & _ & Ho & _ & _ & Hprog).
  destruct Hprog as (_ & Hst & _ & Ht); [simpl; auto|].
  split_and!; [exact Ho|exact Hst|exact Ht].
Defined.

(** ** The response to a failed query *)

Lemma Tx_QueryRow_Scan_open (id : TxId) (q : string) (s : World) :
  tx_done id (trace s) = false ->
  Tx_QueryRow_Scan (Some id) q s = (Ret (scan (query_row (driver s) q)), s).
Proof. intros Hopen. unfold Tx_QueryRow_Scan. by rewrite Hopen. Qed.

(** A handler that reads the time through its open transaction returns
    status 500 and the error of the query when the query fails, and has
    written nothing. *)
Lemma tx_reader_query_fails (render : Time -> string) (ctx : Context) (id : TxId)
    (s : World) (e : error) :
  tx_done id (trace s) = false ->
  query_row (driver s) "SELECT now()" = inr e ->
  (let* tx := getTx (WithValue ctx ctxTxKey (VTx (Some id))) in
   let* (t, err) := Tx_QueryRow_Scan tx "SELECT now()" in
   match err with
   | Some e => ret (StatusInternalServerError, Some e)
   | None => Write (render t) ;; ret (StatusOK, None)
   end) s = (Ret (StatusInternalServerError, Some e), s).
Proof.
  intros Hopen Hq. unfold bind at 1. rewrite getTx_wrapped.
  unfold bind at 1. rewrite Tx_QueryRow_Scan_open by done. rewrite Hq. reflexivity.
Qed.

Lemma tx_done_begun (tr : list Event) :
  tx_done (fresh_tx tr) tr = false ->
  tx_done (fresh_tx tr) ((tr ++ [Begun (fresh_tx tr)]) ++ [Invoked]) = false.
Proof. intros Hopen. rewrite !tx_done_app, Hopen. reflexivity. Qed.

Lemma EchoDatabase_chain_query_fails (echoApp : EchoApp) (ctx : Context) (id : TxId)
    (r : Request) (s : World) (e : error) :
  tx_done id (trace s) = false ->
  query_row (driver s) "SELECT now()" = inr e ->
  sent (resp s) = None ->
  exists s',
    Chain.EchoDatabase echoApp (WithValue ctx ctxTxKey (VTx (Some id))) r s = (Ret tt, s') /\
    sent_status (resp s') = Some StatusInternalServerError /\
    body (resp s') = body (resp s) +:+ message_object "failed to access db" +:+ newline /\
    trace s' = trace s /\ driver s' = driver s.
Proof.
  intros Hopen Hq Hs.
  unfold Chain.EchoDatabase, bind at 1. rewrite getTx_wrapped.
  unfold bind at 1. rewrite Tx_QueryRow_Scan_open by done. rewrite Hq. simpl.
  unfold Chain.sendSimpleErrorMessage, Encode_message, Write, bind, WriteHeader.
  rewrite Hs. simpl.
  eexists. split; [reflexivity|]. simpl. auto.
Qed.

Lemma middleware_after_handler (ap : App) (next : HandlerC) (ctx : Context)
    (r : Request) (s s2 : World) :
  begin_err (driver s) = None ->
  next (WithValue ctx ctxTxKey (VTx (Some (fresh_tx (trace s))))) r
    (add_event Invoked
       (add_log (LogHeader (header (resp s))) (add_event (Begun (fresh_tx (trace s))) s)))
  = (Ret tt, s2) ->
  tx_done (fresh_tx (trace s)) (trace s2) = false ->
  exists s',
    Chain.transactionMiddleware ap next ctx r s = (Ret tt, s') /\
    sent (resp s') = sent (resp s2) /\
    body (resp s') = body (resp s2) /\
    logs s' = logs s2 ++ [LogHeader (<[CanonicalMIMEHeaderKey "Request-id" := ["Request ids!"]]> (header (resp s2)))] /\
    trace s' = trace s2 ++ [Committed (fresh_tx (trace s)) (commit_err (driver s2))].
Proof.
  intros Hb Hn Hopen.
  unfold Chain.transactionMiddleware, bind at 1, Begin. rewrite Hb.
  unfold bind at 1, ret. unfold bind at 1, log_Header, log_Println.
  unfold bind at 1, invoke. simpl. rewrite Hn.
  unfold bind, Header_Set, log_Header, log_Println, Commit, ret. simpl.
  rewrite Hopen. simpl.
  eexists. split; [reflexivity|]. simpl. auto.
Qed.

(** X18: when the handler under [transactionMiddleware] returns with the
    transaction open, the middleware commits it once and does not roll it
    back. *)
Lemma middleware_commits_once (ap : App) (next : HandlerC) (ctx : Context)
    (r : Request) (s s2 : World) :
  begin_err (driver s) = None ->
  next (WithValue ctx ctxTxKey (VTx (Some (fresh_tx (trace s))))) r
    (add_event Invoked
       (add_log (LogHeader (header (resp s))) (add_event (Begun (fresh_tx (trace s))) s)))
  = (Ret tt, s2) ->
  tx_done (fresh_tx (trace s)) (trace s2) = false ->
  let s' := snd (Chain.transactionMiddleware ap next ctx r s) in
  commits (fresh_tx (trace s)) (trace s') = 1%nat /\
  rollbacks (fresh_tx (trace s)) (trace s') = 0%nat /\
  tx_done (fresh_tx (trace s)) (trace s') = true.
Proof.
  intros Hb Hn Hopen. cbv zeta.
  destruct (middleware_after_handler ap next ctx r s s2 Hb Hn Hopen)
    as (s' & -> & _ & _ & _ & Ht).
  simpl. rewrite Ht, commits_app, rollbacks_app, commits_self, tx_done_committed.
  destruct (open_not_finalized _ _ Hopen) as [-> ->]. auto.
Qed.

(** C7, as the code has it: when the query of a handler fails (on a healthy
    [Begin], an open transaction and a response not yet written) the
    response has status 500.  Its body is the text of the query error on
    one line when the handler is dispatched by [TransactionHandlerC] or
    [AppHandlerC]; it is the JSON object with the member [message] when the
    handler is [EchoDatabase] under [transactionMiddleware]. *)
Theorem query_failure_response (ap : App) (echoApp : EchoApp) (dbApp : Custom.DBApp)
    (ctx : Context) (r : Request) (s : World) (e : error) :
  begin_err (driver s) = None ->
  query_row (driver s) "SELECT now()" = inr e ->
  sent (resp s) = None ->
  tx_done (fresh_tx (trace s)) (trace s) = false ->
  is_5xx StatusInternalServerError /\
  (forall h : Custom.AppHandlerC,
      In h [Custom.EchoDatabase echoApp; Custom.hellotran; Custom.tranSelect] ->
      let s' := snd (Custom.TransactionHandlerC_ServeHTTPC
                       {| Custom.TransactionHandlerC_App := ap; Custom.H := h |} ctx r s) in
      sent_status (resp s') = Some StatusInternalServerError /\
      body (resp s') = body (resp s) +:+ e +:+ newline) /\
  (let s' := snd (Custom.AppHandlerC_ServeHTTPC (Custom.notranSelect dbApp) ctx r s) in
   sent_status (resp s') = Some StatusInternalServerError /\
   body (resp s') = body (resp s) +:+ e +:+ newline) /\
  (let s' := snd (Chain.transactionMiddleware ap (Chain.EchoDatabase echoApp) ctx r s) in
   sent_status (resp s') = Some StatusInternalServerError /\
   body (resp s') = body (resp s) +:+ message_object "failed to access db" +:+ newline /\
   (body (resp s) = "" -> is_message_object (body (resp s')))).
Proof.
  intros Hb Hq Hs Hopen.
  split; [unfold is_5xx, StatusInternalServerError; lia|].
  split; [|split].
  - intros h Hin.
    assert (Hh : h (WithValue ctx ctxTxKey (VTx (Some (fresh_tx (trace s))))) r
                   (add_event Invoked (add_event (Begun (fresh_tx (trace s))) s))
                 = (Ret (StatusInternalServerError, Some e),
                    add_event Invoked (add_event (Begun (fresh_tx (trace s))) s))).
    { simpl in Hin. destruct Hin as [<-|[<-|[<-|[]]]].
      - apply (tx_reader_query_fails (fun t => "hello, database! at " +:+ t));
          [by apply tx_done_begun|done].
      - apply (tx_reader_query_fails (fun t => "hello, database! at " +:+ t));
          [by apply tx_done_begun|done].
      - apply (tx_reader_query_fails (fun t => "hello, from database at " +:+ t +:+ " !"));
          [by apply tx_done_begun|done]. }
    destruct (http_Error_unsent e StatusInternalServerError
                (add_event Invoked (add_event (Begun (fresh_tx (trace s))) s)) Hs
                eq_refl eq_refl) as (s3 & He & Hst & Hbody & _).
    destruct (ServeHTTPC_after_handler
                {| Custom.TransactionHandlerC_App := ap; Custom.H := h |} ctx r s _ s3
                (Ret (StatusInternalServerError, Some e)) (Ret tt) Hb Hh He) as (-> & _);
      [discriminate|by apply tx_done_begun|].
    simpl. auto.
  - assert (Hh : Custom.notranSelect dbApp ctx r s
                 = (Ret (StatusInternalServerError, Some e), s)).
    { unfold Custom.notranSelect, bind, DB_QueryRow_Scan. by rewrite Hq. }
    cbv zeta. unfold Custom.AppHandlerC_ServeHTTPC, bind. rewrite Hh.
    destruct (http_Error_unsent e StatusInternalServerError s Hs eq_refl eq_refl)
      as (s3 & -> & Hst & Hbody & _).
    simpl. auto.
  - destruct (EchoDatabase_chain_query_fails echoApp ctx (fresh_tx (trace s)) r
                (add_event Invoked
                   (add_log (LogHeader (header (resp s)))
                      (add_event (Begun (fresh_tx (trace s))) s))) e)
      as (s2 & Hn & Hst & Hbody & Ht & _); [by apply tx_done_begun|done|done|].
    destruct (middleware_after_handler ap (Chain.EchoDatabase echoApp) ctx r s s2 Hb Hn)
      as (s' & -> & Hsent & Hbody' & _).
    { rewrite Ht. by apply tx_done_begun. }
    simpl. unfold sent_status in *. rewrite Hsent, Hbody', Hbody. simpl.
    split_and!; auto.
    intros ->. by exists "failed to access db".
Qed.

Lemma query_failure_response_witness :
  body (resp (snd (Custom.AppHandlerC_ServeHTTPC (Custom.notranSelect Sample.dbApp)
                     Background (Sample.get "/api/select/notran")
                     (Sample.start Sample.bad_query))))
    = "" +:+ "pq: syntax error at or near now" +:+ newline /\
  is_message_object
    (body (resp (snd (Chain.transactionMiddleware Sample.app
                        (Chain.EchoDatabase Sample.echoApp) Background
                        (Sample.get "/api/select/notran")
                        (Sample.start Sample.bad_query))))).
Proof.
  destruct (query_failure_response Sample.app Sample.echoApp Sample.dbApp Background
              (Sample.get "/api/select/notran") (Sample.start Sample.bad_query)
              "pq: syntax error at or near now" eq_refl eq_refl eq_refl eq_refl)
    as (_ & _ & [_ Hplain] & (_ & _ & Hjson)).
  split; [exact Hplain|apply Hjson; reflexivity].
Defined.

(** C7 as stated fails on the route /select/tran: the query fails, the
    response has status 500, and its body is the text of the error, which
    is no JSON object. *)
Lemma query_failure_body_is_plain_text :
  let run := Custom.chain Sample.app (Sample.wrapped Custom.tranSelect)
               (Sample.get "/api/select/tran") (Sample.start Sample.bad_query) in
  fst run = Ret tt /\
  sent_status (resp (snd run)) = Some StatusInternalServerError /\
  body (resp (snd run)) = "pq: syntax error at or near now" +:+ newline /\
  ~ is_message_object (body (resp (snd run))).
Proof.
  cbv zeta. split_and!; [vm_compute; reflexivity..|].
  intros [msg Hm]. vm_compute in Hm. discriminate Hm.
Qed.

(** ** A failed finalization *)

(** C9 as stated fails on the route /select/tran: the rollback fails at the
    driver, and nothing is logged. *)
Lemma failed_rollback_is_not_logged :
  let run := Sample.wrapped Custom.tranSelect Background
               (Sample.get "/api/select/tran") (Sample.start Sample.bad_finalize) in
  trace (snd run)
    = [Begun 0%nat; Invoked; RolledBack 0%nat (Some "driver: bad connection")] /\
  logs (snd run) = [].
Proof. vm_compute. split; reflexivity. Qed.

(** C9, as the code has it: the wrappers drop the result of the
    finalization.  Under [TransactionHandlerC] a failed rollback adds
    nothing to the log, and the response is the one the handler wrote or the
    error response for the handler's error.  Under [transactionMiddleware]
    a failed commit leaves status and body as the handler wrote them, and
    the log gets the dump of the header only. *)
Theorem finalization_error_is_dropped :
  (forall (ah : Custom.TransactionHandlerC) (ctx : Context) (r : Request)
          (s s2 : World) (st : Z) (err : option error) (fe : error),
      begin_err (driver s) = None ->
      Custom.H ah (WithValue ctx ctxTxKey (VTx (Some (fresh_tx (trace s))))) r
        (add_event Invoked (add_event (Begun (fresh_tx (trace s))) s))
      = (Ret (st, err), s2) ->
      tx_done (fresh_tx (trace s)) (trace s2) = false ->
      rollback_err (driver s2) = Some fe ->
      let run := Custom.TransactionHandlerC_ServeHTTPC ah ctx r s in
      logs (snd run) = logs s2 /\
      trace (snd run) = trace s2 ++ [RolledBack (fresh_tx (trace s)) (Some fe)] /\
      match err with
      | None => fst run = Ret tt /\ resp (snd run) = resp s2
      | Some e => resp (snd run) = resp (snd (http_Error e st s2))
      end) /\
  (forall (ap : App) (next : HandlerC) (ctx : Context) (r : Request)
          (s s2 : World) (fe : error),
      begin_err (driver s) = None ->
      next (WithValue ctx ctxTxKey (VTx (Some (fresh_tx (trace s))))) r
        (add_event Invoked
           (add_log (LogHeader (header (resp s)))
              (add_event (Begun (fresh_tx (trace s))) s)))
      = (Ret tt, s2) ->
      tx_done (fresh_tx (trace s)) (trace s2) = false ->
      commit_err (driver s2) = Some fe ->
      let run := Chain.transactionMiddleware ap next ctx r s in
      fst run = Ret tt /\
      sent (resp (snd run)) = sent (resp s2) /\
      body (resp (snd run)) = body (resp s2) /\
      logs (snd run) =
        logs s2 ++ [LogHeader (<[CanonicalMIMEHeaderKey "Request-id" := ["Request ids!"]]>
                                 (header (resp s2)))] /\
      trace (snd run) = trace s2 ++ [Committed (fresh_tx (trace s)) (Some fe)]).
Proof.
  split.
  - intros ah ctx r s s2 st err fe Hb Hh Hopen Hfe. cbv zeta.
    destruct (match err with
              | Some e => http_Error e st s2
              | None => (Ret tt, s2)
              end) as [o s3] eqn:Hans.
    assert (Hd : driver s3 = driver s2).
    { destruct err as [e|].
      - destruct (http_Error_keeps e st s2) as (_ & _ & Hd). by rewrite Hans in Hd.
      - by inversion Hans. }
    destruct (ServeHTTPC_after_handler ah ctx r s s2 s3 (Ret (st, err)) o Hb Hh)
      as (-> & Ht & Hl); [by destruct err|discriminate|done|].
    simpl. rewrite Hd, Hfe, Ht, Hl. split_and!; auto.
    destruct err as [e|].
    + by rewrite Hans.
    + by inversion Hans.
  - intros ap next ctx r s s2 fe Hb Hn Hopen Hfe. cbv zeta.
    destruct (middleware_after_handler ap next ctx r s s2 Hb Hn Hopen)
      as (s' & -> & Hsent & Hbody & Hl & Ht).
    simpl. rewrite Hfe in Ht. auto.
Qed.

Lemma finalization_error_is_dropped_witness :
  logs (snd (Sample.wrapped Custom.tranSelect Background
               (Sample.get "/api/select/tran") (Sample.start Sample.bad_finalize)))
  = [] /\
  body (resp (snd (Chain.transactionMiddleware Sample.app
                     (Chain.EchoDatabase Sample.echoApp) Background
                     (Sample.get "/api/echo/database")
                     (Sample.start Sample.bad_finalize))))
  = message_object "failed to access db" +:+ newline.
Proof.
  split.
  - refine (proj1 (proj1 finalization_error_is_dropped
             {| Custom.TransactionHandlerC_App := Sample.app; Custom.H := Custom.tranSelect |}
             Background (Sample.get "/api/select/tran") (Sample.start Sample.bad_finalize)
             (add_event Invoked (add_event (Begun 0%nat) (Sample.start Sample.bad_finalize)))
             StatusInternalServerError (Some "pq: syntax error at or near now")
             "driver: bad connection" _ _ _ _)); reflexivity.
  - refine (eq_trans (proj1 (proj2 (proj2 (proj2 finalization_error_is_dropped
             Sample.app (Chain.EchoDatabase Sample.echoApp) Background
             (Sample.get "/api/echo/database") (Sample.start Sample.bad_finalize)
             (snd (Chain.EchoDatabase Sample.echoApp
                     (WithValue Background ctxTxKey (VTx (Some 0%nat)))
                     (Sample.get "/api/echo/database")
                     (add_event Invoked
                        (add_log (LogHeader ∅)
                           (add_event (Begun 0%nat) (Sample.start Sample.bad_finalize))))))
             "driver: bad connection" _ _ _ _)))) _); vm_compute; reflexivity.
Defined.

(** ** The recover middleware *)

Lemma canonical_content_type : CanonicalMIMEHeaderKey "Content-type" = "Content-Type".
Proof. reflexivity. Qed.

Lemma canonical_request_id : CanonicalMIMEHeaderKey "Request-id" = "Request-Id".
Proof. reflexivity. Qed.

(** What the deferred closure of [recoverMiddleware] does with a panic on
    a header not yet written. *)
Lemma recover_unsent (ap : App) (next : Handler) (r : Request) (s s1 : World)
    (v : PanicValue) :
  next r s = (Panic v, s1) ->
  sent (resp s1) = None ->
  recoverMiddleware ap next r s =
  (Ret tt,
   {| driver := driver s1;
      resp := {| header := <["Content-Type" := ["application/json"]]> (header (resp s1));
                 sent := Some (StatusInternalServerError,
                               <["Content-Type" := ["application/json"]]> (header (resp s1)));
                 body := body (resp s1) +:+ (message_object "internal error" +:+ newline) |};
      logs := logs s1 ++ [LogPanic v];
      trace := trace s1 |}).
Proof.
  intros Hn Hs. unfold recoverMiddleware, recovering. rewrite Hn.
  unfold bind, log_Println, Header_Set, WriteHeader, Encode_message, Write, bind, WriteHeader.
  simpl. rewrite Hs. simpl. reflexivity.
Qed.

(** The same on a header that is already written. *)
Lemma recover_sent (ap : App) (next : Handler) (r : Request) (s s1 : World)
    (v : PanicValue) (c : Z) (h : Header) :
  next r s = (Panic v, s1) ->
  sent (resp s1) = Some (c, h) ->
  recoverMiddleware ap next r s =
  (Ret tt,
   {| driver := driver s1;
      resp := {| header := <["Content-Type" := ["application/json"]]> (header (resp s1));
                 sent := Some (c, h);
                 body := if bodyAllowedForStatus c
                         then body (resp s1) +:+ (message_object "internal error" +:+ newline)
                         else body (resp s1) |};
      logs := logs s1 ++ [LogPanic v];
      trace := trace s1 |}).
Proof.
  intros Hn Hs. unfold recoverMiddleware, recovering. rewrite Hn.
  unfold bind, log_Println, Header_Set, WriteHeader, Encode_message, Write, bind, WriteHeader.
  simpl. rewrite Hs. simpl.
  destruct (bodyAllowedForStatus c); reflexivity.
Qed.

(** X1: when the handler under [recoverMiddleware] panics before anything
    was written, the request returns normally, the panic is logged, and the
    response is the 500 with the JSON object for [internal error], sent
    with the JSON content type. *)
Theorem recover_answers_panic (ap : App) (next : Handler) (r : Request) (s s1 : World)
    (v : PanicValue) :
  next r s = (Panic v, s1) ->
  sent (resp s1) = None ->
  let run := recoverMiddleware ap next r s in
  fst run = Ret tt /\
  sent_status (resp (snd run)) = Some StatusInternalServerError /\
  body (resp (snd run)) = body (resp s1) +:+ message_object "internal error" +:+ newline /\
  (exists h, sent (resp (snd run)) = Some (StatusInternalServerError, h) /\
             h !! "Content-Type" = Some ["application/json"]) /\
  logs (snd run) = logs s1 ++ [LogPanic v] /\
  trace (snd run) = trace s1.
Proof.
  intros Hn Hs. cbv zeta. rewrite (recover_unsent ap next r s s1 v Hn Hs). simpl.
  split_and!; auto.
  eexists. split; [reflexivity|]. by rewrite lookup_insert_eq.
Qed.

Lemma recover_answers_panic_witness :
  fst (recoverMiddleware Sample.app (Sample.faulty Background) (Sample.get "/api/x")
         (Sample.start Sample.healthy)) = Ret tt /\
  sent_status (resp (snd (recoverMiddleware Sample.app (Sample.faulty Background)
                            (Sample.get "/api/x") (Sample.start Sample.healthy))))
  = Some StatusInternalServerError.
Proof.
  pose proof (recover_answers_panic Sample.app (Sample.faulty Background)
                (Sample.get "/api/x") (Sample.start Sample.healthy)
                (Sample.start Sample.healthy) (PanicMsg "boom") eq_refl eq_refl) as Hr.
  split; apply Hr.
Defined.

(** X2: no panic leaves [recoverMiddleware], and a handler that does not
    panic runs under it as it runs alone. *)
Theorem recover_lets_no_panic_out (ap : App) (next : Handler) (r : Request) (s : World) :
  (forall v, fst (recoverMiddleware ap next r s) <> Panic v) /\
  ((forall v, fst (next r s) <> Panic v) -> recoverMiddleware ap next r s = next r s).
Proof.
  destruct (next r s) as [o s1] eqn:Hn. split.
  - intros v. destruct o as [[]|v'|c].
    + unfold recoverMiddleware, recovering. rewrite Hn. discriminate.
    + destruct (sent (resp s1)) as [[c h]|] eqn:Hs.
      * rewrite (recover_sent ap next r s s1 v' c h Hn Hs). discriminate.
      * rewrite (recover_unsent ap next r s s1 v' Hn Hs). discriminate.
    + unfold recoverMiddleware, recovering. rewrite Hn. discriminate.
  - intros Hnp. unfold recoverMiddleware, recovering. rewrite Hn.
    destruct o as [[]|v'|c]; try reflexivity. by destruct (Hnp v').
Qed.

(** X3: when the handler had written the header before it panicked, the
    status and the headers on the wire stay as they were sent: the 500 of
    [recoverMiddleware] and its content type do not reach the client, only
    the JSON object is added to a body that may carry one.  The log goes on
    with the line for the panic. *)
Theorem recover_keeps_sent_status (ap : App) (next : Handler) (r : Request) (s s1 : World)
    (v : PanicValue) (c : Z) (h : Header) :
  next r s = (Panic v, s1) ->
  sent (resp s1) = Some (c, h) ->
  let run := recoverMiddleware ap next r s in
  fst run = Ret tt /\
  sent (resp (snd run)) = Some (c, h) /\
  body (resp (snd run)) =
    (if bodyAllowedForStatus c
     then body (resp s1) +:+ message_object "internal error" +:+ newline
     else body (resp s1)) /\
  (exists rest, logs (snd run) = logs s1 ++ LogPanic v :: rest) /\
  trace (snd run) = trace s1.
Proof.
  intros Hn Hs. cbv zeta. rewrite (recover_sent ap next r s s1 v c h Hn Hs). simpl.
  split_and!; auto. by exists [].
Qed.

Lemma recover_keeps_sent_status_witness :
  fst (recoverMiddleware Sample.app (Sample.wrapped Custom.tranSelect Background)
         (Sample.get "/api/select/tran") (Sample.start Sample.no_connection)) = Ret tt.
Proof.
  refine (proj1 (recover_keeps_sent_status Sample.app
                   (Sample.wrapped Custom.tranSelect Background)
                   (Sample.get "/api/select/tran") (Sample.start Sample.no_connection)
                   (snd (Sample.wrapped Custom.tranSelect Background
                           (Sample.get "/api/select/tran")
                           (Sample.start Sample.no_connection)))
                   NilDereference StatusInternalServerError _ _ _));
    vm_compute; reflexivity.
Defined.

(** ** The context and the accessor *)

(** X4: [getTx] gives back the pointer that [context.WithValue] stored
    under [ctxTxKey], a value stored under another key does not touch it,
    and a value of another type stored under [ctxTxKey] makes it panic. *)
Theorem getTx_WithValue (ctx : Context) (tx : option TxId) (k : string) (v : Value)
    (x : string) (s : World) :
  getTx (WithValue ctx ctxTxKey (VTx tx)) s = (Ret tx, s) /\
  (k <> ctxTxKey -> getTx (WithValue ctx k v) s = getTx ctx s) /\
  getTx (WithValue ctx ctxTxKey (VString x)) s = (Panic InterfaceConversion, s).
Proof.
  unfold getTx, WithValue. split_and!.
  - by rewrite lookup_insert_eq.
  - intros Hk. by rewrite lookup_insert_ne.
  - by rewrite lookup_insert_eq.
Qed.

Lemma getTx_WithValue_witness :
  getTx (WithValue (WithValue Background ctxTxKey (VTx (Some 3%nat))) "user" (VString "bob"))
    (Sample.start Sample.healthy)
  = (Ret (Some 3%nat), Sample.start Sample.healthy).
Proof.
  destruct (getTx_WithValue (WithValue Background ctxTxKey (VTx (Some 3%nat)))
              (Some 3%nat) "user" (VString "bob") "" (Sample.start Sample.healthy))
    as (_ & Hother & _).
  rewrite Hother by discriminate.
  apply (getTx_WithValue Background (Some 3%nat) "user" (VString "bob") ""
           (Sample.start Sample.healthy)).
Defined.

(** ** What the handlers leave alone *)

Lemma Write_keeps (p : string) (s : World) :
  fst (Write p s) = Ret tt /\
  trace (snd (Write p s)) = trace s /\ logs (snd (Write p s)) = logs s /\
  driver (snd (Write p s)) = driver s.
Proof.
  unfold Write, bind, WriteHeader.
  destruct (sent (resp s)) as [[c h]|] eqn:Hs; simpl.
  - unfold sent_status. rewrite Hs. simpl. destruct (bodyAllowedForStatus c); simpl; auto.
  - auto.
Qed.

(** A handler that reads the time through the transaction of its context
    touches neither trace nor log nor driver and does not end the
    process. *)
Lemma tx_reader_keeps (render : Time -> string) (ctx : Context) (s : World) :
  let run := (let* tx := getTx ctx in
              let* (t, err) := Tx_QueryRow_Scan tx "SELECT now()" in
              match err with
              | Some e => ret (StatusInternalServerError, Some e)
              | None => Write (render t) ;; ret (StatusOK, None)
              end) s in
  trace (snd run) = trace s /\ logs (snd run) = logs s /\ driver (snd run) = driver s /\
  (forall c, fst run <> Exit c).
Proof.
  cbv zeta.
  destruct ((let* tx := getTx ctx in
             let* (t, err) := Tx_QueryRow_Scan tx "SELECT now()" in
             match err with
             | Some e => ret (StatusInternalServerError, Some e)
             | None => Write (render t) ;; ret (StatusOK, None)
             end) s) as [o s1] eqn:Hrun.
  simpl. revert Hrun. unfold bind at 1, getTx.
  destruct (ctx !! ctxTxKey) as [[tx|v]|]; simpl;
    try (intros H; inversion H; subst; split_and!; auto; discriminate).
  unfold bind at 1, Tx_QueryRow_Scan.
  destruct tx as [id|]; simpl;
    try (intros H; inversion H; subst; split_and!; auto; discriminate).
  destruct (tx_done id (trace s)); simpl;
    try (intros H; inversion H; subst; split_and!; auto; discriminate).
  destruct (query_row (driver s) "SELECT now()") as [t|e]; simpl;
    try (intros H; inversion H; subst; split_and!; auto; discriminate).
  unfold bind. destruct (Write_keeps (render t) s) as (Ho & Ht & Hl & Hd).
  destruct (Write (render t) s) as [o' s']. simpl in *. subst o'.
  intros H; inversion H; subst. split_and!; auto; discriminate.
Qed.

(** X5: the handlers of the program only borrow what they are given: none
    of them begins, commits or rolls back a transaction, writes to the log
    or ends the process, whatever the context and the database. *)
Theorem handlers_only_borrow (echoApp : EchoApp) (dbApp : Custom.DBApp)
    (h : Custom.AppHandlerC) (ctx : Context) (r : Request) (s : World) :
  In h (Custom.result_handlers echoApp dbApp) ->
  trace (snd (h ctx r s)) = trace s /\
  logs (snd (h ctx r s)) = logs s /\
  driver (snd (h ctx r s)) = driver s /\
  (forall c, fst (h ctx r s) <> Exit c).
Proof.
  intros Hin. simpl in Hin.
  destruct Hin as [<-|[<-|[<-|[<-|[<-|[<-|[]]]]]]].
  - unfold Custom.EchoServer, bind.
    destruct (Write_keeps "hello, server!" s) as (Ho & Ht & Hl & Hd).
    destruct (Write "hello, server!" s) as [o s1]. simpl in *. subst o. simpl.
    split_and!; auto; discriminate.
  - exact (tx_reader_keeps (fun t => "hello, database! at " +:+ t) ctx s).
  - unfold Custom.helloret, bind.
    destruct (Write_keeps "hello, world!" s) as (Ho & Ht & Hl & Hd).
    destruct (Write "hello, world!" s) as [o s1]. simpl in *. subst o. simpl.
    split_and!; auto; discriminate.
  - exact (tx_reader_keeps (fun t => "hello, database! at " +:+ t) ctx s).
  - exact (tx_reader_keeps (fun t => "hello, from database at " +:+ t +:+ " !") ctx s).
  - unfold Custom.notranSelect, bind, DB_QueryRow_Scan.
    destruct (query_row (driver s) "SELECT now()") as [t|e]; simpl.
    + destruct (Write_keeps ("hello, from database at " +:+ t +:+ " !") s)
        as (Ho & Ht & Hl & Hd).
      destruct (Write ("hello, from database at " +:+ t +:+ " !") s) as [o s1].
      simpl in *. subst o. simpl. split_and!; auto; discriminate.
    + split_and!; auto; discriminate.
Qed.

Lemma handlers_only_borrow_witness :
  trace (snd (Custom.tranSelect (WithValue Background ctxTxKey (VTx (Some 0%nat)))
                (Sample.get "/api/select/tran") (Sample.start Sample.healthy)))
  = trace (Sample.start Sample.healthy).
Proof.
  apply (handlers_only_borrow Sample.echoApp Sample.dbApp Custom.tranSelect
           (WithValue Background ctxTxKey (VTx (Some 0%nat)))
           (Sample.get "/api/select/tran") (Sample.start Sample.healthy)).
  simpl. auto 10.
Defined.

(** The routes that do not use a transaction return normally for every
    context, writer and database, and leave the trace as it is. *)
Lemma unwrapped_routes_return (echoApp : EchoApp) (dbApp : Custom.DBApp)
    (h : Custom.AppHandlerC) (ctx : Context) (r : Request) (s : World) :
  In h [Custom.EchoServer echoApp; Custom.helloret; Custom.notranSelect dbApp] ->
  fst (Custom.AppHandlerC_ServeHTTPC h ctx r s) = Ret tt /\
  trace (snd (Custom.AppHandlerC_ServeHTTPC h ctx r s)) = trace s /\
  fst (Custom.helloctx ctx r s) = Ret tt /\
  trace (snd (Custom.helloctx ctx r s)) = trace s.
Proof.
  intros Hin.
  assert (Hctx : fst (Custom.helloctx ctx r s) = Ret tt /\
                 trace (snd (Custom.helloctx ctx r s)) = trace s).
  { unfold Custom.helloctx. destruct (Write_keeps "hello, world!" s) as (Ho & Ht & _). auto. }
  destruct Hctx as [Hc1 Hc2].
  assert (Hw : forall p, exists s1,
               (Write p ;; ret (StatusOK, @None error)) s = (Ret (StatusOK, None), s1) /\
               trace s1 = trace s).
  { intros p. unfold bind. destruct (Write_keeps p s) as (Ho & Ht & _).
    destruct (Write p s) as [o s1]. simpl in *. subst o. eauto. }
  destruct (Custom.AppHandlerC_ServeHTTPC h ctx r s) as [o s'] eqn:Hrun.
  simpl. revert Hrun. unfold Custom.AppHandlerC_ServeHTTPC, bind at 1.
  simpl in Hin. destruct Hin as [<-|[<-|[<-|[]]]].
  - unfold Custom.EchoServer. destruct (Hw "hello, server!") as (s1 & -> & Ht).
    intros H; inversion H; subst. auto.
  - unfold Custom.helloret. destruct (Hw "hello, world!") as (s1 & -> & Ht).
    intros H; inversion H; subst. auto.
  - unfold Custom.notranSelect, bind at 1, DB_QueryRow_Scan.
    destruct (query_row (driver s) "SELECT now()") as [t|e]; simpl.
    + destruct (Hw ("hello, from database at " +:+ t +:+ " !")) as (s1 & -> & Ht).
      intros H; inversion H; subst. auto.
    + destruct (http_Error_keeps e StatusInternalServerError s) as (_ & Ht & _).
      intros H. rewrite H in Ht. simpl in Ht. split_and!; auto.
      revert H.
      unfold http_Error, bind, Header_Set, WriteHeader, Write, bind, WriteHeader; simpl.
      destruct (sent (resp s)) as [[c hd]|]; simpl.
      * destruct (bodyAllowedForStatus c); intros H; by inversion H.
      * intros H; by inversion H.
Qed.

(** ** Requests through the xhandler chain *)

(** The world in which [transactionMiddleware] calls the handler. *)
Lemma middleware_returns (ap : App) (next : HandlerC) (ctx : Context)
    (r : Request) (s s2 : World) :
  begin_err (driver s) = None ->
  next (WithValue ctx ctxTxKey (VTx (Some (fresh_tx (trace s))))) r
    (add_event Invoked
       (add_log (LogHeader (header (resp s))) (add_event (Begun (fresh_tx (trace s))) s)))
  = (Ret tt, s2) ->
  tx_done (fresh_tx (trace s)) (trace s2) = false ->
  Chain.transactionMiddleware ap next ctx r s =
  (Ret tt,
   {| driver := driver s2;
      resp := {| header := <["Request-Id" := ["Request ids!"]]> (header (resp s2));
                 sent := sent (resp s2);
                 body := body (resp s2) |};
      logs := logs s2 ++ [LogHeader (<["Request-Id" := ["Request ids!"]]> (header (resp s2)))];
      trace := trace s2 ++ [Committed (fresh_tx (trace s)) (commit_err (driver s2))] |}).
Proof.
  intros Hb Hn Hopen.
  unfold Chain.transactionMiddleware, bind at 1, Begin. rewrite Hb.
  unfold bind at 1, ret. unfold bind at 1, log_Header, log_Println.
  unfold bind at 1, invoke. simpl. rewrite Hn.
  unfold bind, Header_Set, log_Header, log_Println, Commit, ret. simpl.
  rewrite Hopen. reflexivity.
Qed.

(** The chain around a middleware run that returns: the content type is
    set before, the access line is logged after. *)
Lemma Chain_chain_returns (ap : App) (h : HandlerC) (r : Request) (s s' : World) :
  Chain.transactionMiddleware ap h Background r
    (set_resp {| header := <["Content-Type" := ["application/json"]]> (header (resp s));
                 sent := sent (resp s); body := body (resp s) |} s) = (Ret tt, s') ->
  Chain.chain ap h r s = (Ret tt, add_log (LogAccess (Name ap) (Method r) (URL r)) s').
Proof.
  intros Hm.
  unfold Chain.chain, recoverMiddleware, recovering, loggingMiddleware,
    Chain.jsonResponseMiddleware, bind at 1.
  unfold bind at 1, Header_Set.
  change (CanonicalMIMEHeaderKey "Content-type") with "Content-Type".
  rewrite Hm. reflexivity.
Qed.

Lemma EchoServer_unsent (echoApp : EchoApp) (ctx : Context) (r : Request) (s : World) :
  sent (resp s) = None ->
  Chain.EchoServer echoApp ctx r s =
  (Ret tt,
   set_resp {| header := header (resp s);
               sent := Some (StatusOK, header (resp s));
               body := body (resp s) +:+ (message_object "hello, server!" +:+ newline) |} s).
Proof.
  intros Hs.
  unfold Chain.EchoServer, Chain.sendSimpleMessage, Encode_message, Write, bind, WriteHeader.
  rewrite Hs. reflexivity.
Qed.

Lemma EchoDatabase_unsent_ok (echoApp : EchoApp) (ctx : Context) (id : TxId)
    (r : Request) (s : World) (t : Time) :
  tx_done id (trace s) = false ->
  query_row (driver s) "SELECT now()" = inl t ->
  sent (resp s) = None ->
  Chain.EchoDatabase echoApp (WithValue ctx ctxTxKey (VTx (Some id))) r s =
  (Ret tt,
   {| driver := driver s;
      resp := {| header := <["Echodatabase" := ["yes"]]> (header (resp s));
                 sent := Some (StatusOK, <["Echodatabase" := ["yes"]]> (header (resp s)));
                 body := body (resp s) +:+
                         (message_object ("hello, database! at " +:+ t) +:+ newline) |};
      logs := logs s ++ [LogHeader (<["Echodatabase" := ["yes"]]> (header (resp s)))];
      trace := trace s |}).
Proof.
  intros Hopen Hq Hs.
  unfold Chain.EchoDatabase, bind at 1. rewrite getTx_wrapped.
  unfold bind at 1. rewrite Tx_QueryRow_Scan_open by done. rewrite Hq. simpl.
  unfold Chain.sendSimpleMessage, Encode_message, Write, bind, Header_Set, WriteHeader,
    log_Header, log_Println.
  simpl. rewrite Hs. reflexivity.
Qed.

(** X7: a request to /echo/server through the chain, on a database that
    begins transactions.  The handler never queries, yet the request opens
    a transaction and commits it; the response is the 200 with the JSON
    greeting, sent with the JSON content type, and the [Request-Id] header
    that the middleware sets afterwards is in the header map only, not
    among the headers sent. *)
Theorem echo_server_through_chain (ap : App) (echoApp : EchoApp) (r : Request) (s : World) :
  begin_err (driver s) = None ->
  sent (resp s) = None ->
  tx_done (fresh_tx (trace s)) (trace s) = false ->
  let run := Chain.chain ap (Chain.EchoServer echoApp) r s in
  fst run = Ret tt /\
  sent (resp (snd run)) =
    Some (StatusOK, <["Content-Type" := ["application/json"]]> (header (resp s))) /\
  body (resp (snd run)) = body (resp s) +:+ message_object "hello, server!" +:+ newline /\
  header (resp (snd run)) !! "Request-Id" = Some ["Request ids!"] /\
  trace (snd run) =
    trace s ++ [Begun (fresh_tx (trace s)); Invoked;
                Committed (fresh_tx (trace s)) (commit_err (driver s))].
Proof.
  intros Hb Hs Hopen. cbv zeta.
  erewrite Chain_chain_returns.
  2:{ erewrite middleware_returns; [reflexivity|exact Hb| |].
      - simpl. apply EchoServer_unsent. exact Hs.
      - simpl. by apply tx_done_begun. }
  simpl. split_and!; auto.
  - by rewrite lookup_insert_eq.
  - by rewrite <- !app_assoc.
Qed.

Lemma echo_server_through_chain_witness :
  trace (snd (Chain.chain Sample.app (Chain.EchoServer Sample.echoApp)
                (Sample.get "/api/echo/server") (Sample.start Sample.healthy)))
  = [] ++ [Begun 0%nat; Invoked; Committed 0%nat None].
Proof.
  apply (echo_server_through_chain Sample.app Sample.echoApp
           (Sample.get "/api/echo/server") (Sample.start Sample.healthy));
    reflexivity.
Defined.

(** X8: a request to /echo/database through the chain when the query
    answers with the time [t]: status 200, the JSON greeting with the time,
    the headers [Content-Type] and [Echodatabase] sent, and the transaction
    committed. *)
Theorem echo_database_through_chain (ap : App) (echoApp : EchoApp) (r : Request)
    (s : World) (t : Time) :
  begin_err (driver s) = None ->
  query_row (driver s) "SELECT now()" = inl t ->
  sent (resp s) = None ->
  tx_done (fresh_tx (trace s)) (trace s) = false ->
  let run := Chain.chain ap (Chain.EchoDatabase echoApp) r s in
  fst run = Ret tt /\
  sent (resp (snd run)) =
    Some (StatusOK,
          <["Echodatabase" := ["yes"]]>
            (<["Content-Type" := ["application/json"]]> (header (resp s)))) /\
  body (resp (snd run)) =
    body (resp s) +:+ message_object ("hello, database! at " +:+ t) +:+ newline /\
  trace (snd run) =
    trace s ++ [Begun (fresh_tx (trace s)); Invoked;
                Committed (fresh_tx (trace s)) (commit_err (driver s))].
Proof.
  intros Hb Hq Hs Hopen. cbv zeta.
  erewrite Chain_chain_returns.
  2:{ erewrite middleware_returns; [reflexivity|exact Hb| |].
      - simpl. apply EchoDatabase_unsent_ok with (t := t); [|exact Hq|exact Hs].
        simpl. by apply tx_done_begun.
      - simpl. by apply tx_done_begun. }
  simpl. split_and!; auto.
  by rewrite <- !app_assoc.
Qed.

Lemma echo_database_through_chain_witness :
  body (resp (snd (Chain.chain Sample.app (Chain.EchoDatabase Sample.echoApp)
                     (Sample.get "/api/echo/database") (Sample.start Sample.healthy))))
  = "" +:+ message_object ("hello, database! at " +:+ Sample.now) +:+ newline.
Proof.
  apply (echo_database_through_chain Sample.app Sample.echoApp
           (Sample.get "/api/echo/database") (Sample.start Sample.healthy) Sample.now);
    reflexivity.
Defined.

Lemma commits_round (id : TxId) (res : option error) (tr : list Event) :
  tx_done id tr = false ->
  commits id (tr ++ [Begun id; Invoked; Committed id res]) = 1%nat /\
  rollbacks id (tr ++ [Begun id; Invoked; Committed id res]) = 0%nat.
Proof.
  intros Hopen. rewrite commits_app, rollbacks_app.
  destruct (open_not_finalized _ _ Hopen) as [-> ->].
  unfold commits, rollbacks. simpl. by rewrite Nat.eqb_refl.
Qed.

(** X9: a request to /echo/database through the chain when the query
    fails.  The handler answers 500 itself and returns; the middleware has
    no way to learn of the failure and commits the transaction all the
    same, and never rolls it back. *)
Theorem failed_query_is_committed (ap : App) (echoApp : EchoApp) (r : Request)
    (s : World) (e : error) :
  begin_err (driver s) = None ->
  query_row (driver s) "SELECT now()" = inr e ->
  sent (resp s) = None ->
  tx_done (fresh_tx (trace s)) (trace s) = false ->
  let run := Chain.chain ap (Chain.EchoDatabase echoApp) r s in
  fst run = Ret tt /\
  sent_status (resp (snd run)) = Some StatusInternalServerError /\
  trace (snd run) =
    trace s ++ [Begun (fresh_tx (trace s)); Invoked;
                Committed (fresh_tx (trace s)) (commit_err (driver s))] /\
  commits (fresh_tx (trace s)) (trace (snd run)) = 1%nat /\
  rollbacks (fresh_tx (trace s)) (trace (snd run)) = 0%nat.
Proof.
  intros Hb Hq Hs Hopen. cbv zeta.
  destruct (EchoDatabase_chain_query_fails echoApp Background (fresh_tx (trace s)) r
              (add_event Invoked
                 (add_log (LogHeader (<["Content-Type" := ["application/json"]]>
                                        (header (resp s))))
                    (add_event (Begun (fresh_tx (trace s)))
                       (set_resp {| header := <["Content-Type" := ["application/json"]]>
                                                (header (resp s));
                                    sent := sent (resp s); body := body (resp s) |} s)))) e)
    as (s2 & Hn & Hst & _ & Ht & Hd); [by apply tx_done_begun|done|done|].
  erewrite Chain_chain_returns.
  2:{ erewrite middleware_returns; [reflexivity|exact Hb|exact Hn|].
      rewrite Ht. simpl. by apply tx_done_begun. }
  simpl. rewrite Ht, Hd. simpl. rewrite <- !app_assoc. simpl.
  destruct (commits_round (fresh_tx (trace s)) (commit_err (driver s)) (trace s) Hopen)
    as [Hc Hr].
  split_and!; auto.
Qed.

Lemma failed_query_is_committed_witness :
  commits 0%nat
    (trace (snd (Chain.chain Sample.app (Chain.EchoDatabase Sample.echoApp)
                   (Sample.get "/api/echo/database") (Sample.start Sample.bad_query))))
  = 1%nat.
Proof.
  apply (failed_query_is_committed Sample.app Sample.echoApp
           (Sample.get "/api/echo/database") (Sample.start Sample.bad_query)
           "pq: syntax error at or near now");
    reflexivity.
Defined.

(** X10: when [Begin] fails under [transactionMiddleware], [log.Fatal]
    logs the error and ends the process with status 1: the handler is not
    called, nothing is written to the response, and [recoverMiddleware]
    does not catch it. *)
Theorem begin_failure_ends_process (ap : App) (next : HandlerC) (ctx : Context)
    (r : Request) (s : World) (e : error) :
  begin_err (driver s) = Some e ->
  Chain.transactionMiddleware ap next ctx r s = (Exit 1, add_log (LogFatal e) s) /\
  fst (Chain.chain ap next r s) = Exit 1 /\
  sent (resp (snd (Chain.chain ap next r s))) = sent (resp s) /\
  body (resp (snd (Chain.chain ap next r s))) = body (resp s) /\
  logs (snd (Chain.chain ap next r s)) = logs s ++ [LogFatal e] /\
  trace (snd (Chain.chain ap next r s)) = trace s.
Proof.
  intros Hb.
  assert (Hm : forall s0, begin_err (driver s0) = Some e ->
               Chain.transactionMiddleware ap next ctx r s0 = (Exit 1, add_log (LogFatal e) s0)).
  { intros s0 Hb0. unfold Chain.transactionMiddleware, bind at 1, Begin. rewrite Hb0.
    reflexivity. }
  split; [by apply Hm|].
  assert (Hc : Chain.chain ap next r s =
               (Exit 1, add_log (LogFatal e)
                          (set_resp {| header := <["Content-Type" := ["application/json"]]>
                                                   (header (resp s));
                                       sent := sent (resp s); body := body (resp s) |} s))).
  { unfold Chain.chain, recoverMiddleware, recovering, loggingMiddleware,
      Chain.jsonResponseMiddleware, bind at 1.
    unfold bind at 1, Header_Set.
    change (CanonicalMIMEHeaderKey "Content-type") with "Content-Type".
    unfold Chain.transactionMiddleware, bind at 1, Begin. simpl. rewrite Hb. reflexivity. }
  rewrite Hc. simpl. auto.
Qed.

Lemma begin_failure_ends_process_witness :
  fst (Chain.chain Sample.app (Chain.EchoDatabase Sample.echoApp)
         (Sample.get "/api/echo/database") (Sample.start Sample.no_connection)) = Exit 1.
Proof.
  apply (begin_failure_ends_process Sample.app (Chain.EchoDatabase Sample.echoApp)
           Background (Sample.get "/api/echo/database")
           (Sample.start Sample.no_connection)
           "dial tcp 127.0.0.1:5432: connection refused").
  reflexivity.
Defined.

(** X11: whatever the handler under [transactionMiddleware] has written,
    the [Request-Id] header set after it came back is in the header map
    and the middleware sends nothing: status, headers on the wire and body
    are those the handler left. *)
Theorem request_id_is_set_after_the_response (ap : App) (next : HandlerC) (ctx : Context)
    (r : Request) (s s2 : World) :
  begin_err (driver s) = None ->
  next (WithValue ctx ctxTxKey (VTx (Some (fresh_tx (trace s))))) r
    (add_event Invoked
       (add_log (LogHeader (header (resp s))) (add_event (Begun (fresh_tx (trace s))) s)))
  = (Ret tt, s2) ->
  tx_done (fresh_tx (trace s)) (trace s2) = false ->
  let s' := snd (Chain.transactionMiddleware ap next ctx r s) in
  header (resp s') !! "Request-Id" = Some ["Request ids!"] /\
  sent (resp s') = sent (resp s2) /\
  body (resp s') = body (resp s2) /\
  (forall k, k <> "Request-Id" -> header (resp s') !! k = header (resp s2) !! k).
Proof.
  intros Hb Hn Hopen. cbv zeta.
  rewrite (middleware_returns ap next ctx r s s2 Hb Hn Hopen). simpl.
  split_and!; auto.
  - by rewrite lookup_insert_eq.
  - intros k Hk. by rewrite lookup_insert_ne.
Qed.

Lemma request_id_is_set_after_the_response_witness :
  sent (resp (snd (Chain.transactionMiddleware Sample.app
                     (Chain.EchoServer Sample.echoApp) Background
                     (Sample.get "/api/echo/server") (Sample.start Sample.healthy))))
  = Some (StatusOK, ∅).
Proof.
  refine (eq_trans (proj1 (proj2 (request_id_is_set_after_the_response Sample.app
             (Chain.EchoServer Sample.echoApp) Background
             (Sample.get "/api/echo/server") (Sample.start Sample.healthy)
             (snd (Chain.EchoServer Sample.echoApp
                     (WithValue Background ctxTxKey (VTx (Some 0%nat)))
                     (Sample.get "/api/echo/server")
                     (add_event Invoked
                        (add_log (LogHeader ∅)
                           (add_event (Begun 0%nat) (Sample.start Sample.healthy))))))
             _ _ _))) _); vm_compute; reflexivity.
Defined.

Lemma middleware_commits_once_witness :
  commits 0%nat
    (trace (snd (Chain.transactionMiddleware Sample.app
                   (Chain.EchoServer Sample.echoApp) Background
                   (Sample.get "/api/echo/server") (Sample.start Sample.healthy))))
  = 1%nat.
Proof.
  refine (proj1 (middleware_commits_once Sample.app
             (Chain.EchoServer Sample.echoApp) Background
             (Sample.get "/api/echo/server") (Sample.start Sample.healthy)
             (snd (Chain.EchoServer Sample.echoApp
                     (WithValue Background ctxTxKey (VTx (Some 0%nat)))
                     (Sample.get "/api/echo/server")
                     (add_event Invoked
                        (add_log (LogHeader ∅)
                           (add_event (Begun 0%nat) (Sample.start Sample.healthy))))))
             _ _ _)); vm_compute; reflexivity.
Defined.

(** ** Requests through the chain of the handlers with a result *)

Lemma Custom_chain_returns (ap : App) (h : HandlerC) (r : Request) (s s' : World) :
  h Background r s = (Ret tt, s') ->
  Custom.chain ap h r s = (Ret tt, add_log (LogAccess (Name ap) (Method r) (URL r)) s').
Proof.
  intros Hh. unfold Custom.chain, recoverMiddleware, recovering, loggingMiddleware, bind.
  rewrite Hh. reflexivity.
Qed.

(** A panic passes the logging middleware without an access line. *)
Lemma logging_panics (ap : App) (next : Handler) (r : Request) (s s1 : World)
    (v : PanicValue) :
  next r s = (Panic v, s1) -> loggingMiddleware ap next r s = (Panic v, s1).
Proof. intros Hn. unfold loggingMiddleware, bind. by rewrite Hn. Qed.

(** A handler that reads the time through its open transaction, when the
    query answers, on a header not yet written. *)
Lemma tx_reader_query_ok (render : Time -> string) (ctx : Context) (id : TxId)
    (s : World) (t : Time) :
  tx_done id (trace s) = false ->
  query_row (driver s) "SELECT now()" = inl t ->
  sent (resp s) = None ->
  (let* tx := getTx (WithValue ctx ctxTxKey (VTx (Some id))) in
   let* (t, err) := Tx_QueryRow_Scan tx "SELECT now()" in
   match err with
   | Some e => ret (StatusInternalServerError, Some e)
   | None => Write (render t) ;; ret (StatusOK, None)
   end) s =
  (Ret (StatusOK, None),
   set_resp {| header := header (resp s);
               sent := Some (StatusOK, header (resp s));
               body := body (resp s) +:+ render t |} s).
Proof.
  intros Hopen Hq Hs. unfold bind at 1. rewrite getTx_wrapped.
  unfold bind at 1. rewrite Tx_QueryRow_Scan_open by done. rewrite Hq. simpl.
  unfold Write, bind, WriteHeader. rewrite Hs. reflexivity.
Qed.

(** X12: a request to one of the three routes under [TransactionHandlerC]
    through the chain, when [Begin] and the query succeed: status 200, the
    greeting with the time as plain text, one access line in the log, and
    the transaction rolled back by the deferred call. *)
Theorem wrapped_route_success (ap : App) (echoApp : EchoApp) (h : Custom.AppHandlerC)
    (render : Time -> string) (r : Request) (s : World) (t : Time) :
  In (h, render)
     [(Custom.EchoDatabase echoApp, fun t => "hello, database! at " +:+ t);
      (Custom.hellotran, fun t => "hello, database! at " +:+ t);
      (Custom.tranSelect, fun t => "hello, from database at " +:+ t +:+ " !")] ->
  begin_err (driver s) = None ->
  query_row (driver s) "SELECT now()" = inl t ->
  sent (resp s) = None ->
  tx_done (fresh_tx (trace s)) (trace s) = false ->
  let run := Custom.chain ap
               (Custom.TransactionHandlerC_ServeHTTPC
                  {| Custom.TransactionHandlerC_App := ap; Custom.H := h |}) r s in
  fst run = Ret tt /\
  sent (resp (snd run)) = Some (StatusOK, header (resp s)) /\
  body (resp (snd run)) = body (resp s) +:+ render t /\
  logs (snd run) = logs s ++ [LogAccess (Name ap) (Method r) (URL r)] /\
  trace (snd run) =
    trace s ++ [Begun (fresh_tx (trace s)); Invoked;
                RolledBack (fresh_tx (trace s)) (rollback_err (driver s))].
Proof.
  intros Hin Hb Hq Hs Hopen. cbv zeta.
  assert (Hh : h (WithValue Background ctxTxKey (VTx (Some (fresh_tx (trace s))))) r
                 (add_event Invoked (add_event (Begun (fresh_tx (trace s))) s))
               = (Ret (StatusOK, None),
                  set_resp {| header := header (resp s);
                              sent := Some (StatusOK, header (resp s));
                              body := body (resp s) +:+ render t |}
                    (add_event Invoked (add_event (Begun (fresh_tx (trace s))) s)))).
  { simpl in Hin. destruct Hin as [Hp|[Hp|[Hp|[]]]]; injection Hp as <- <-.
    - apply (tx_reader_query_ok (fun t => "hello, database! at " +:+ t) Background
               (fresh_tx (trace s))
               (add_event Invoked (add_event (Begun (fresh_tx (trace s))) s)) t);
        solve [by apply tx_done_begun | done].
    - apply (tx_reader_query_ok (fun t => "hello, database! at " +:+ t) Background
               (fresh_tx (trace s))
               (add_event Invoked (add_event (Begun (fresh_tx (trace s))) s)) t);
        solve [by apply tx_done_begun | done].
    - apply (tx_reader_query_ok (fun t => "hello, from database at " +:+ t +:+ " !")
               Background (fresh_tx (trace s))
               (add_event Invoked (add_event (Begun (fresh_tx (trace s))) s)) t);
        solve [by apply tx_done_begun | done]. }
  erewrite Custom_chain_returns.
  2:{ eapply (ServeHTTPC_after_handler
                {| Custom.TransactionHandlerC_App := ap; Custom.H := h |} Background r s
                _ _ (Ret (StatusOK, None)) (Ret tt) Hb Hh eq_refl);
        [discriminate|by apply tx_done_begun]. }
  simpl. rewrite <- !app_assoc. auto.
Qed.

Lemma wrapped_route_success_witness :
  body (resp (snd (Custom.chain Sample.app (Sample.wrapped Custom.tranSelect)
                     (Sample.get "/api/select/tran") (Sample.start Sample.healthy))))
  = "" +:+ ("hello, from database at " +:+ Sample.now +:+ " !").
Proof.
  apply (wrapped_route_success Sample.app Sample.echoApp Custom.tranSelect
           (fun t => "hello, from database at " +:+ t +:+ " !")
           (Sample.get "/api/select/tran") (Sample.start Sample.healthy) Sample.now);
    try reflexivity.
  simpl. auto.
Defined.

(** X13: a request to one of the three routes under [TransactionHandlerC]
    through the chain, when [Begin] fails with [e].  The client gets status
    500 and a body of two parts: the text of [e] from the wrapper, then the
    JSON object for [internal error] from [recoverMiddleware], which caught
    the nil dereference.  The log goes on with the line for the panic and
    no access line follows it; no transaction was begun or finalized. *)
Theorem wrapped_route_begin_failure (ap : App) (echoApp : EchoApp) (h : Custom.AppHandlerC)
    (r : Request) (s : World) (e : error) :
  In h [Custom.EchoDatabase echoApp; Custom.hellotran; Custom.tranSelect] ->
  begin_err (driver s) = Some e ->
  sent (resp s) = None ->
  let run := Custom.chain ap
               (Custom.TransactionHandlerC_ServeHTTPC
                  {| Custom.TransactionHandlerC_App := ap; Custom.H := h |}) r s in
  fst run = Ret tt /\
  sent_status (resp (snd run)) = Some StatusInternalServerError /\
  body (resp (snd run)) =
    (body (resp s) +:+ e +:+ newline) +:+ message_object "internal error" +:+ newline /\
  (exists rest,
     logs (snd run) = logs s ++ LogPanic NilDereference :: rest /\
     forall name method url, ~ In (LogAccess name method url) rest) /\
  trace (snd run) = trace s ++ [Invoked].
Proof.
  intros Hin Hb Hs. cbv zeta.
  destruct (http_Error_unsent e StatusInternalServerError s Hs eq_refl eq_refl)
    as (s1 & He & Hst & Hbody & Hl & Ht & _).
  assert (Hh : h (WithValue Background ctxTxKey (VTx None)) r (add_event Invoked s1)
               = (Panic NilDereference, add_event Invoked s1)).
  { simpl in Hin. destruct Hin as [<-|[<-|[<-|[]]]].
    - apply (tx_reader_nil (fun t => "hello, database! at " +:+ t)).
    - apply (tx_reader_nil (fun t => "hello, database! at " +:+ t)).
    - apply (tx_reader_nil (fun t => "hello, from database at " +:+ t +:+ " !")). }
  assert (Hrun : Custom.TransactionHandlerC_ServeHTTPC
                   {| Custom.TransactionHandlerC_App := ap; Custom.H := h |} Background r s
                 = (Panic NilDereference, add_event Invoked s1)).
  { rewrite ServeHTTPC_not_begun with (e := e) by done.
    apply defer_Rollback_nil with (o := Panic NilDereference); [|discriminate].
    unfold bind at 1. rewrite He. unfold bind, invoke. cbn [Custom.H]. rewrite Hh.
    reflexivity. }
  unfold sent_status in Hst.
  destruct (sent (resp s1)) as [[c hd]|] eqn:Hsent; [|discriminate].
  simpl in Hst. inversion Hst; subst c.
  unfold Custom.chain.
  rewrite (recover_sent ap _ r s (add_event Invoked s1) NilDereference
             StatusInternalServerError hd
             (logging_panics ap _ r s _ _ Hrun) Hsent).
  simpl. unfold sent_status. simpl. rewrite Hbody, Hl, Ht. split_and!; auto.
  exists []. split; [reflexivity|]. intros name method url [].
Qed.

Lemma wrapped_route_begin_failure_witness :
  body (resp (snd (Custom.chain Sample.app (Sample.wrapped Custom.tranSelect)
                     (Sample.get "/api/select/tran") (Sample.start Sample.no_connection))))
  = ("" +:+ "dial tcp 127.0.0.1:5432: connection refused" +:+ newline)
    +:+ message_object "internal error" +:+ newline.
Proof.
  apply (wrapped_route_begin_failure Sample.app Sample.echoApp Custom.tranSelect
           (Sample.get "/api/select/tran") (Sample.start Sample.no_connection)
           "dial tcp 127.0.0.1:5432: connection refused");
    try reflexivity.
  simpl. auto.
Defined.

(** X14: a handler that calls [getTx], registered without the transaction
    wrapper and served through the chain.  The request ends with status
    500 and the JSON object for [internal error]; the failed assertion is
    logged, the access line is not, and no transaction is begun. *)
Theorem unwrapped_accessor_through_chain (ap : App) (echoApp : EchoApp)
    (h : Custom.AppHandlerC) (r : Request) (s : World) :
  In h [Custom.EchoDatabase echoApp; Custom.hellotran; Custom.tranSelect] ->
  sent (resp s) = None ->
  let run := Custom.chain ap (Custom.AppHandlerC_ServeHTTPC h) r s in
  fst run = Ret tt /\
  sent_status (resp (snd run)) = Some StatusInternalServerError /\
  body (resp (snd run)) = body (resp s) +:+ message_object "internal error" +:+ newline /\
  logs (snd run) = logs s ++ [LogPanic InterfaceConversion] /\
  trace (snd run) = trace s.
Proof.
  intros Hin Hs. cbv zeta.
  assert (Hrun : Custom.AppHandlerC_ServeHTTPC h Background r s
                 = (Panic InterfaceConversion, s)).
  { unfold Custom.AppHandlerC_ServeHTTPC, bind at 1.
    simpl in Hin. destruct Hin as [<-|[<-|[<-|[]]]];
      unfold Custom.EchoDatabase, Custom.hellotran, Custom.tranSelect, bind at 1;
      rewrite getTx_unwrapped by reflexivity; reflexivity. }
  unfold Custom.chain.
  rewrite (recover_unsent ap _ r s s InterfaceConversion
             (logging_panics ap _ r s _ _ Hrun) Hs).
  simpl. auto.
Qed.

Lemma unwrapped_accessor_through_chain_witness :
  sent_status
    (resp (snd (Custom.chain Sample.app (Custom.AppHandlerC_ServeHTTPC Custom.hellotran)
                  (Sample.get "/api/hello/context3") (Sample.start Sample.healthy))))
  = Some StatusInternalServerError.
Proof.
  apply (unwrapped_accessor_through_chain Sample.app Sample.echoApp Custom.hellotran
           (Sample.get "/api/hello/context3") (Sample.start Sample.healthy));
    try reflexivity.
  simpl. auto.
Defined.

(** ** Transactions between requests *)

Lemma fresh_tx_app (tr1 tr2 : list Event) :
  fresh_tx (tr1 ++ tr2) = (fresh_tx tr1 + fresh_tx tr2)%nat.
Proof. unfold fresh_tx. by rewrite List.filter_app, length_app. Qed.

Lemma settled_open (tr : list Event) : settled tr -> tx_done (fresh_tx tr) tr = false.
Proof.
  intros Hs. destruct (tx_done (fresh_tx tr) tr) eqn:Hd; [|done].
  apply Hs in Hd. lia.
Qed.

Lemma settled_invoked (tr : list Event) : settled tr -> settled (tr ++ [Invoked]).
Proof.
  intros Hs id. rewrite tx_done_app, fresh_tx_app. simpl.
  rewrite orb_false_r, Nat.add_0_r. apply Hs.
Qed.

(** A request that begins the next transaction and finalizes it leaves the
    trace settled. *)
Lemma settled_round (tr : list Event) (f : Event) :
  settled tr ->
  (exists res, f = Committed (fresh_tx tr) res \/ f = RolledBack (fresh_tx tr) res) ->
  settled (tr ++ [Begun (fresh_tx tr); Invoked; f]) /\
  fresh_tx (tr ++ [Begun (fresh_tx tr); Invoked; f]) = S (fresh_tx tr).
Proof.
  intros Hs (res & Hf).
  assert (Hfresh : fresh_tx (tr ++ [Begun (fresh_tx tr); Invoked; f]) = S (fresh_tx tr)).
  { rewrite fresh_tx_app. destruct Hf as [-> | ->]; unfold fresh_tx; simpl; lia. }
  split; [|exact Hfresh].
  intros id. rewrite Hfresh, tx_done_app.
  assert (Hd : tx_done id [Begun (fresh_tx tr); Invoked; f] = Nat.eqb (fresh_tx tr) id).
  { destruct Hf as [-> | ->]; simpl; by rewrite orb_false_r. }
  rewrite Hd. specialize (Hs id).
  destruct (Nat.eqb_spec (fresh_tx tr) id) as [Heq|Hne].
  - rewrite orb_true_r. split; [lia|done].
  - rewrite orb_false_r. rewrite Hs. lia.
Qed.

Lemma http_Error_500_returns (e : string) (s : World) :
  fst (http_Error e StatusInternalServerError s) = Ret tt.
Proof.
  unfold http_Error, bind, Header_Set, WriteHeader, Write, bind, WriteHeader; simpl.
  destruct (sent (resp s)) as [[c hd]|]; simpl.
  - destruct (bodyAllowedForStatus c); reflexivity.
  - reflexivity.
Qed.

(** Recover and logging around a handler that does not end the process:
    the request returns, with the trace the handler left. *)
Lemma Custom_chain_trace (ap : App) (h : HandlerC) (r : Request) (s : World) :
  (forall c, fst (h Background r s) <> Exit c) ->
  fst (Custom.chain ap h r s) = Ret tt /\
  trace (snd (Custom.chain ap h r s)) = trace (snd (h Background r s)).
Proof.
  intros Hx. destruct (h Background r s) as [o s1] eqn:Hh. simpl in *.
  destruct o as [[]|v|c].
  - rewrite (Custom_chain_returns ap h r s s1 Hh). auto.
  - unfold Custom.chain.
    destruct (sent (resp s1)) as [[c hd]|] eqn:Hs.
    + rewrite (recover_sent ap _ r s s1 v c hd (logging_panics ap _ r s _ _ Hh) Hs). auto.
    + rewrite (recover_unsent ap _ r s s1 v (logging_panics ap _ r s _ _ Hh) Hs). auto.
  - by destruct (Hx c).
Qed.

(** What a route under [TransactionHandlerC] adds to the trace, whatever
    the database does and whatever was written before. *)
Lemma wrapped_route_trace (ap : App) (echoApp : EchoApp) (h : Custom.AppHandlerC)
    (ctx : Context) (r : Request) (s : World) :
  In h [Custom.EchoDatabase echoApp; Custom.hellotran; Custom.tranSelect] ->
  tx_done (fresh_tx (trace s)) (trace s) = false ->
  let run := Custom.TransactionHandlerC_ServeHTTPC
               {| Custom.TransactionHandlerC_App := ap; Custom.H := h |} ctx r s in
  (forall c, fst run <> Exit c) /\
  (trace (snd run) = trace s ++ [Invoked] \/
   exists res,
     trace (snd run) =
       trace s ++ [Begun (fresh_tx (trace s)); Invoked; RolledBack (fresh_tx (trace s)) res]).
Proof.
  intros Hin Hopen. cbv zeta.
  assert (Hkeep : forall ctx0 s0,
             trace (snd (h ctx0 r s0)) = trace s0 /\ (forall c, fst (h ctx0 r s0) <> Exit c)).
  { intros ctx0 s0. simpl in Hin. destruct Hin as [<-|[<-|[<-|[]]]].
    - destruct (tx_reader_keeps (fun t => "hello, database! at " +:+ t) ctx0 s0)
        as (Ht & _ & _ & Hx). auto.
    - destruct (tx_reader_keeps (fun t => "hello, database! at " +:+ t) ctx0 s0)
        as (Ht & _ & _ & Hx). auto.
    - destruct (tx_reader_keeps (fun t => "hello, from database at " +:+ t +:+ " !") ctx0 s0)
        as (Ht & _ & _ & Hx). auto. }
  destruct (begin_err (driver s)) as [e|] eqn:Hb.
  - pose proof (http_Error_500_returns e s) as Hr.
    destruct (http_Error_keeps e StatusInternalServerError s) as (_ & Ht1 & _).
    destruct (http_Error e StatusInternalServerError s) as [o1 s1] eqn:He.
    simpl in Hr, Ht1. subst o1.
    assert (Hh : h (WithValue ctx ctxTxKey (VTx None)) r (add_event Invoked s1)
                 = (Panic NilDereference, add_event Invoked s1)).
    { simpl in Hin. destruct Hin as [<-|[<-|[<-|[]]]].
      - apply (tx_reader_nil (fun t => "hello, database! at " +:+ t)).
      - apply (tx_reader_nil (fun t => "hello, database! at " +:+ t)).
      - apply (tx_reader_nil (fun t => "hello, from database at " +:+ t +:+ " !")). }
    rewrite ServeHTTPC_not_begun with (e := e) by done.
    erewrite defer_Rollback_nil with (o := Panic NilDereference)
                                     (s1 := add_event Invoked s1); [| |discriminate].
    + simpl. rewrite Ht1. split; [discriminate|auto].
    + unfold bind at 1. rewrite He. unfold bind, invoke. cbn [Custom.H]. rewrite Hh.
      reflexivity.
  - destruct (Hkeep (WithValue ctx ctxTxKey (VTx (Some (fresh_tx (trace s)))))
                (add_event Invoked (add_event (Begun (fresh_tx (trace s))) s)))
      as [Ht2 Hx2].
    destruct (h (WithValue ctx ctxTxKey (VTx (Some (fresh_tx (trace s))))) r
                (add_event Invoked (add_event (Begun (fresh_tx (trace s))) s)))
      as [o2 s2] eqn:Hh.
    simpl in Ht2, Hx2.
    destruct (match o2 with
              | Ret (st, Some e) => http_Error e st s2
              | Ret (_, None) => (Ret tt, s2)
              | Panic v => (Panic v, s2)
              | Exit c => (Exit c, s2)
              end) as [o s3] eqn:Hans.
    assert (Hopen2 : tx_done (fresh_tx (trace s)) (trace s2) = false).
    { rewrite Ht2. simpl. by apply tx_done_begun. }
    destruct (ServeHTTPC_after_handler
                {| Custom.TransactionHandlerC_App := ap; Custom.H := h |} ctx r s s2 s3 o2 o
                Hb Hh Hans Hx2 Hopen2) as (-> & Ht3 & _).
    simpl. split.
    + intros c ->. destruct o2 as [[st [e|]]|v|c'].
      * by apply (http_Error_no_exit e st s2 c); rewrite Hans.
      * discriminate.
      * discriminate.
      * by destruct (Hx2 c').
    + right. exists (rollback_err (driver s3)).
      rewrite Ht3, Ht2. simpl. by rewrite <- !app_assoc.
Qed.

(** X15: every route that [main] registers, served through the chain,
    returns normally whatever the database does and whatever was written
    before, and leaves the transactions settled: each transaction the
    request began is finalized when it ends, and a request begins at most
    one. *)
Theorem routes_keep_transactions_settled (ap : App) (echoApp : EchoApp)
    (dbApp : Custom.DBApp) (path : string) (h : HandlerC) (r : Request) (s : World) :
  In (path, h) (Custom.routes ap echoApp dbApp) ->
  settled (trace s) ->
  let run := Custom.chain ap h r s in
  fst run = Ret tt /\
  settled (trace (snd run)) /\
  (fresh_tx (trace (snd run)) <= S (fresh_tx (trace s)))%nat.
Proof.
  intros Hin Hs. cbv zeta.
  assert (Hcase : (forall c, fst (h Background r s) <> Exit c) /\
                  (trace (snd (h Background r s)) = trace s \/
                   trace (snd (h Background r s)) = trace s ++ [Invoked] \/
                   exists res,
                     trace (snd (h Background r s)) =
                       trace s ++ [Begun (fresh_tx (trace s)); Invoked;
                                   RolledBack (fresh_tx (trace s)) res])).
  { pose proof (settled_open _ Hs) as Hopen.
    assert (Happ : forall h0, In h0 [Custom.EchoServer echoApp; Custom.helloret;
                                     Custom.notranSelect dbApp] ->
                   (forall c, fst (Custom.AppHandlerC_ServeHTTPC h0 Background r s) <> Exit c) /\
                   trace (snd (Custom.AppHandlerC_ServeHTTPC h0 Background r s)) = trace s).
    { intros h0 Hin0.
      destruct (unwrapped_routes_return echoApp dbApp h0 Background r s Hin0)
        as (Ho & Ht & _).
      split; [|exact Ht]. intros c. rewrite Ho. discriminate. }
    assert (Hwr : forall h0, In h0 [Custom.EchoDatabase echoApp; Custom.hellotran;
                                    Custom.tranSelect] ->
                  let run := Custom.TransactionHandlerC_ServeHTTPC
                               {| Custom.TransactionHandlerC_App := ap; Custom.H := h0 |}
                               Background r s in
                  (forall c, fst run <> Exit c) /\
                  (trace (snd run) = trace s \/
                   trace (snd run) = trace s ++ [Invoked] \/
                   exists res,
                     trace (snd run) =
                       trace s ++ [Begun (fresh_tx (trace s)); Invoked;
                                   RolledBack (fresh_tx (trace s)) res])).
    { intros h0 Hin0.
      destruct (wrapped_route_trace ap echoApp h0 Background r s Hin0 Hopen) as [Hx Ht].
      split; [exact Hx|]. right. exact Ht. }
    simpl in Hin.
    destruct Hin as [Hp|[Hp|[Hp|[Hp|[Hp|[Hp|[Hp|[]]]]]]]]; injection Hp as <- <-.
    - destruct (Happ (Custom.EchoServer echoApp)) as [Hx Ht]; simpl; auto.
    - apply (Hwr (Custom.EchoDatabase echoApp)). simpl. auto.
    - destruct (unwrapped_routes_return echoApp dbApp Custom.helloret Background r s)
        as (_ & _ & Ho & Ht); [simpl; auto|].
      split; [|auto]. intros c. rewrite Ho. discriminate.
    - destruct (Happ Custom.helloret) as [Hx Ht]; simpl; auto.
    - apply (Hwr Custom.hellotran). simpl. auto.
    - apply (Hwr Custom.tranSelect). simpl. auto.
    - destruct (Happ (Custom.notranSelect dbApp)) as [Hx Ht]; simpl; auto. }
  destruct Hcase as [Hx Ht].
  destruct (Custom_chain_trace ap h r s Hx) as [Ho Htr].
  split; [exact Ho|]. rewrite Htr.
  destruct Ht as [-> | [-> | (res & ->)]].
  - split; [exact Hs|lia].
  - split; [by apply settled_invoked|].
    rewrite fresh_tx_app. unfold fresh_tx at 2. simpl. lia.
  - destruct (settled_round (trace s) (RolledBack (fresh_tx (trace s)) res) Hs) as [Hs' Hf];
      [eauto|].
    split; [exact Hs'|]. rewrite Hf. lia.
Qed.

Lemma routes_keep_transactions_settled_witness :
  fst (Custom.chain Sample.app (Sample.wrapped Custom.tranSelect)
         (Sample.get "/api/select/tran") (Sample.start Sample.bad_finalize)) = Ret tt.
Proof.
  apply (routes_keep_transactions_settled Sample.app Sample.echoApp Sample.dbApp
           "/select/tran" (Sample.wrapped Custom.tranSelect)
           (Sample.get "/api/select/tran") (Sample.start Sample.bad_finalize)).
  - simpl. auto 10.
  - intros id. unfold fresh_tx, tx_done. simpl. split; [discriminate|lia].
Defined.

(** The two handlers of the xhandler chain return on every writer and
    leave trace and driver as they are. *)
Lemma Chain_handlers_return (echoApp : EchoApp) (h : HandlerC) (ctx : Context)
    (id : TxId) (r : Request) (s : World) :
  In h [Chain.EchoServer echoApp; Chain.EchoDatabase echoApp] ->
  tx_done id (trace s) = false ->
  exists s2,
    h (WithValue ctx ctxTxKey (VTx (Some id))) r s = (Ret tt, s2) /\
    trace s2 = trace s /\ driver s2 = driver s.
Proof.
  intros Hin Hopen. simpl in Hin. destruct Hin as [<-|[<-|[]]].
  - unfold Chain.EchoServer, Chain.sendSimpleMessage, Encode_message, Write, bind,
      WriteHeader.
    destruct (sent (resp s)) as [[c hd]|] eqn:Hs; simpl.
    + rewrite ?Hs; simpl; unfold sent_status; rewrite ?Hs; simpl.
      destruct (bodyAllowedForStatus c); eexists; (split; [reflexivity|]); simpl; auto.
    + eexists; (split; [reflexivity|]); simpl; auto.
  - unfold Chain.EchoDatabase, bind at 1. rewrite getTx_wrapped.
    unfold bind at 1. rewrite Tx_QueryRow_Scan_open by done.
    destruct (query_row (driver s) "SELECT now()") as [t|e]; simpl.
    + unfold Chain.sendSimpleMessage, Encode_message, Write, bind, Header_Set, WriteHeader,
        log_Header, log_Println.
      simpl. destruct (sent (resp s)) as [[c hd]|] eqn:Hs; simpl.
      * rewrite ?Hs; simpl; unfold sent_status; simpl; rewrite ?Hs; simpl.
        destruct (bodyAllowedForStatus c); eexists; (split; [reflexivity|]); simpl; auto.
      * eexists; (split; [reflexivity|]); simpl; auto.
    + unfold Chain.sendSimpleErrorMessage, Encode_message, Write, bind, WriteHeader.
      destruct (sent (resp s)) as [[c hd]|] eqn:Hs; simpl.
      * rewrite ?Hs; simpl; unfold sent_status; rewrite ?Hs; simpl.
        destruct (bodyAllowedForStatus c); eexists; (split; [reflexivity|]); simpl; auto.
      * eexists; (split; [reflexivity|]); simpl; auto.
Qed.

(** X16: every route of the xhandler chain, whatever the database answers
    to the query and whatever was written before.  When [Begin] fails the
    process ends with status 1 and the trace as it was; otherwise the
    request returns, has begun one transaction and committed it, and
    leaves the transactions settled. *)
Theorem chain_routes_commit_and_settle (ap : App) (echoApp : EchoApp) (path : string)
    (h : HandlerC) (r : Request) (s : World) :
  In (path, h) (Chain.routes echoApp) ->
  settled (trace s) ->
  let run := Chain.chain ap h r s in
  match begin_err (driver s) with
  | Some e => fst run = Exit 1 /\ trace (snd run) = trace s
  | None =>
      fst run = Ret tt /\
      trace (snd run) =
        trace s ++ [Begun (fresh_tx (trace s)); Invoked;
                    Committed (fresh_tx (trace s)) (commit_err (driver s))] /\
      settled (trace (snd run))
  end.
Proof.
  intros Hin Hs. cbv zeta.
  assert (Hh : In h [Chain.EchoServer echoApp; Chain.EchoDatabase echoApp]).
  { simpl in Hin. destruct Hin as [Hp|[Hp|[]]]; injection Hp as <- <-; simpl; auto. }
  destruct (begin_err (driver s)) as [e|] eqn:Hb.
  - assert (Hc : Chain.chain ap h r s =
                 (Exit 1, add_log (LogFatal e)
                            (set_resp {| header := <["Content-Type" := ["application/json"]]>
                                                     (header (resp s));
                                         sent := sent (resp s); body := body (resp s) |} s))).
    { unfold Chain.chain, recoverMiddleware, recovering, loggingMiddleware,
        Chain.jsonResponseMiddleware, bind at 1.
      unfold bind at 1, Header_Set.
      change (CanonicalMIMEHeaderKey "Content-type") with "Content-Type".
      unfold Chain.transactionMiddleware, bind at 1, Begin. simpl. rewrite Hb. reflexivity. }
    rewrite Hc. simpl. auto.
  - pose proof (settled_open _ Hs) as Hopen.
    destruct (Chain_handlers_return echoApp h Background (fresh_tx (trace s)) r
                (add_event Invoked
                   (add_log (LogHeader (<["Content-Type" := ["application/json"]]>
                                          (header (resp s))))
                      (add_event (Begun (fresh_tx (trace s)))
                         (set_resp {| header := <["Content-Type" := ["application/json"]]>
                                                  (header (resp s));
                                      sent := sent (resp s); body := body (resp s) |} s))))
                Hh) as (s2 & Hn & Ht & Hd); [by apply tx_done_begun|].
    erewrite Chain_chain_returns.
    2:{ erewrite middleware_returns; [reflexivity|exact Hb|exact Hn|].
        rewrite Ht. simpl. by apply tx_done_begun. }
    simpl. rewrite Ht, Hd. simpl. rewrite <- !app_assoc. simpl.
    split_and!; auto.
    apply settled_round; eauto.
Qed.

Lemma chain_routes_commit_and_settle_witness :
  fst (Chain.chain Sample.app (Chain.EchoDatabase Sample.echoApp)
         (Sample.get "/api/echo/database") (Sample.start Sample.bad_finalize)) = Ret tt.
Proof.
  apply (chain_routes_commit_and_settle Sample.app Sample.echoApp "/echo/database"
           (Chain.EchoDatabase Sample.echoApp) (Sample.get "/api/echo/database")
           (Sample.start Sample.bad_finalize)).
  - simpl. auto.
  - intros id. unfold fresh_tx, tx_done. simpl. split; [discriminate|lia].
Defined.

(** ** The JSON replies of the xhandler chain *)

(** X17: [sendSimpleErrorMessage] and [sendSimpleMessage] on a header not
    yet written answer 500 and 200 with the JSON object for the message;
    on a header already written the status stays the one that was sent,
    and the object is only added to the body. *)
Theorem sendSimple_first_status_wins (ap : App) (msg : string) (s : World) :
  (sent (resp s) = None ->
   sent_status (resp (snd (Chain.sendSimpleErrorMessage ap msg s)))
     = Some StatusInternalServerError /\
   sent_status (resp (snd (Chain.sendSimpleMessage ap msg s))) = Some StatusOK /\
   body (resp (snd (Chain.sendSimpleErrorMessage ap msg s)))
     = body (resp s) +:+ message_object msg +:+ newline /\
   body (resp (snd (Chain.sendSimpleMessage ap msg s)))
     = body (resp s) +:+ message_object msg +:+ newline) /\
  (forall c hd, sent (resp s) = Some (c, hd) ->
   sent (resp (snd (Chain.sendSimpleErrorMessage ap msg s))) = Some (c, hd) /\
   sent (resp (snd (Chain.sendSimpleMessage ap msg s))) = Some (c, hd) /\
   (bodyAllowedForStatus c = true ->
    body (resp (snd (Chain.sendSimpleErrorMessage ap msg s)))
      = body (resp s) +:+ message_object msg +:+ newline)).
Proof.
  unfold Chain.sendSimpleErrorMessage, Chain.sendSimpleMessage, Encode_message, Write,
    bind, WriteHeader.
  split.
  - intros Hs. rewrite Hs. simpl. auto.
  - intros c hd Hs.
    rewrite ?Hs; simpl; unfold sent_status; rewrite ?Hs; simpl.
    destruct (bodyAllowedForStatus c); simpl; rewrite ?Hs; split_and!; auto; done.
Qed.

Lemma sendSimple_first_status_wins_witness :
  sent_status
    (resp (snd (Chain.sendSimpleErrorMessage Sample.app "failed to access db"
                  (Sample.start Sample.healthy))))
  = Some StatusInternalServerError /\
  sent_status
    (resp (snd (Chain.sendSimpleErrorMessage Sample.app "failed to access db"
                  (snd (Chain.sendSimpleMessage Sample.app "hello"
                          (Sample.start Sample.healthy))))))
  = Some StatusOK.
Proof.
  split.
  - apply (proj1 (sendSimple_first_status_wins Sample.app "failed to access db"
                    (Sample.start Sample.healthy))).
    reflexivity.
  - destruct (proj2 (sendSimple_first_status_wins Sample.app "failed to access db"
                       (snd (Chain.sendSimpleMessage Sample.app "hello"
                               (Sample.start Sample.healthy))))
                StatusOK ∅ eq_refl) as (Hsent & _).
    unfold sent_status. rewrite Hsent. reflexivity.
Defined.

Lemma rollback_on_handler_panic_witness :
  rollbacks 0%nat
    (trace (snd (Custom.TransactionHandlerC_ServeHTTPC
                   {| Custom.TransactionHandlerC_App := Sample.app;
                      Custom.H := fun ctx r => panic (PanicMsg "boom") |}
                   Background (Sample.get "/api/select/tran")
                   (Sample.start Sample.healthy))))
  = 1%nat.
Proof.
  refine (proj2 (rollback_on_handler_panic
             {| Custom.TransactionHandlerC_App := Sample.app;
                Custom.H := fun ctx r => panic (PanicMsg "boom") |}
             Background (Sample.get "/api/select/tran") (Sample.start Sample.healthy)
             _ (PanicMsg "boom") _ _ _)); reflexivity.
Defined.
